(** * Okta tables: list and get hydrate functions

    A shallow embedding of the hydrate functions of the tables
    [okta_factor], [okta_app_assigned_user], [okta_password_policy] /
    [okta_mfa_policy] and of the two policy enrichment hydrates declared in
    [table_okta_signon_policy.go], followed by the properties of the
    query-execution behaviour they implement: row budget, fan-out pruning,
    qualifier push-down, error classification, union resolution, pagination
    and page-size clamping.

    Go values are modelled as follows.
    - [string] is [string]; a [*string] is an [option string] ([None] is nil).
    - [error] is the message returned by [err.Error()].
    - [int64] and [int32] are [Z]; the conversion [int32(x)] is written out.
    - A hydrate function returning [(interface{}, error)] yields a [Result].
    - The remote service and the connection are a record [Remote] of scripted
      answers; every request that reaches it is recorded as an [Event],
      together with every row handed to the output. *)

From Stdlib Require Import String Ascii List ZArith Bool Arith Lia.
Import ListNotations.
Local Open Scope string_scope.
Local Open Scope list_scope.

(** ** Strings *)

Module Strings.

(** [strings.Contains(s, substr)]. *)
Fixpoint Contains (s substr : string) : bool :=
  if String.prefix substr s then true
  else match s with
       | EmptyString => false
       | String _ s' => Contains s' substr
       end.

Definition lowerAscii (c : ascii) : ascii :=
  let n := nat_of_ascii c in
  if (65 <=? n)%nat && (n <=? 90)%nat then ascii_of_nat (n + 32) else c.

(** [strings.ToLower(s)], on the ASCII letters.  Bytes above 127 are left
    as they are. *)
Fixpoint ToLower (s : string) : string :=
  match s with
  | EmptyString => EmptyString
  | String c s' => String (lowerAscii c) (ToLower s')
  end.

(** [slices.Contains(xs, x)] on strings. *)
Definition slicesContains (xs : list string) (x : string) : bool :=
  existsb (String.eqb x) xs.

End Strings.

(** ** Data *)

Definition error := string.

(** What a hydrate function hands back: [(v, nil)], [(nil, err)], or a
    run-time panic (nil dereference, failed type assertion). *)
Inductive Result (A : Type) : Type :=
| Ret (v : option A)
| Fail (err : error)
| Panic.
Arguments Ret {A} v.
Arguments Fail {A} err.
Arguments Panic {A}.

(** [proto.QualValue]: the cases of its [oneof] that the tables look at. *)
#[warnings="-register-all"]
Inductive QualValue : Type :=
| StringValue (s : string)
| Int64Value (z : Z)
| BoolValue (b : bool)
| ListValue (Values : list QualValue).

Definition GetStringValue (q : option QualValue) : string :=
  match q with
  | Some (StringValue s) => s
  | _ => ""
  end.

Definition GetListValue (q : option QualValue) : option (list QualValue) :=
  match q with
  | Some (ListValue vs) => Some vs
  | _ => None
  end.

(** [plugin.QueryData], the part read by the hydrate functions. *)
Record QueryData : Type := {
  TableName : string;
  EqualsQuals : list (string * QualValue);
  Limit : option Z                      (* d.QueryContext.Limit, *int64 *)
}.

Fixpoint lookupQual (quals : list (string * QualValue)) (key : string)
  : option QualValue :=
  match quals with
  | [] => None
  | (k, v) :: rest => if String.eqb k key then Some v else lookupQual rest key
  end.

(** [d.EqualsQuals[key]]. *)
Definition EqualsQual (d : QueryData) (key : string) : option QualValue :=
  lookupQual (EqualsQuals d) key.

(** [d.EqualsQualString(key)]. *)
Definition EqualsQualString (d : QueryData) (key : string) : string :=
  GetStringValue (EqualsQual d key).

(** *** Users and factors *)

Record UserProfile : Type := { Login : option string }.

Record User : Type := {
  User_Id : option string;
  User_Profile : option UserProfile
}.

(** [userData.Profile.GetLogin()]: the getter is nil-safe. *)
Definition GetLogin (p : option UserProfile) : string :=
  match p with
  | Some {| Login := Some l |} => l
  | _ => ""
  end.

Record UserFactor : Type := {
  Factor_Id : option string;
  FactorType : option string;
  Provider : option string;
  Factor_Status : option string;
  Factor_Profile : option string       (* JSON *)
}.

Definition emptyUserFactor : UserFactor :=
  {| Factor_Id := None; FactorType := None; Provider := None;
     Factor_Status := None; Factor_Profile := None |}.

Record OktaFactor : Type := {
  OF_UserFactor : UserFactor;
  OF_Profile : option string
}.

(** The zero value [OktaFactor{}]. *)
Definition emptyOktaFactor : OktaFactor :=
  {| OF_UserFactor := emptyUserFactor; OF_Profile := None |}.

(** The factor types with an embedded [UserFactor] and a profile of their
    own that [getFactorDetails] names. *)
Inductive FactorKind : Type :=
| FactorCall | FactorEmail | FactorPush | FactorSMS | FactorSecurityQuestion
| FactorToken | FactorTokenHOTP | FactorTokenHardware
| FactorTokenSoftwareTOTP | FactorU2F | FactorWeb | FactorWebAuthn.

(** The dynamic type of [factor.GetActualInstance()]. *)
Inductive FactorInstance : Type :=
| TypedFactor (k : FactorKind) (uf : UserFactor) (profile : option string)
| UserFactorPtr (uf : UserFactor)
| UserFactorVal (uf : UserFactor)
| OtherFactor (tag : string).

(** [okta.ListFactors200ResponseInner]: [None] is a nil actual instance. *)
Definition ListFactors200ResponseInner := option FactorInstance.

Record UserFactorInfo : Type := {
  UserId : string;
  UserName : string;
  Factor : OktaFactor
}.

(** *** Applications and their users *)

Inductive ApplicationKind : Type :=
| AutoLoginApplication | BasicAuthApplication | BookmarkApplication
| BrowserPluginApplication | OpenIdConnectApplication | SamlApplication
| Saml11Application | SecurePasswordStoreApplication
| WsFederationApplication.

Inductive Application : Type :=
| KnownApplication (k : ApplicationKind) (Id : option string)
| OtherApplication (tag : string) (Id : option string).

Record AppUser : Type := {
  AppUser_Id : option string;
  Credentials_UserName : string;       (* column user_name *)
  Profile_email : string;              (* column email *)
  Profile_given_name : string          (* column first_name *)
}.

Record AppUserInfo : Type := {
  AppId : string;
  AppUser_ : AppUser
}.

(** *** Policies *)

Record Policy : Type := {
  Policy_Id : option string;
  Policy_Name : string;
  Policy_Description : option string;
  Policy_Status : option string;
  Policy_Priority : option Z;
  Policy_System : option bool;
  Policy_Type : string;
  Policy_Created : option Z;
  Policy_LastUpdated : option Z;
  Policy_Settings : option string      (* JSON *)
}.

(** The dynamic type of [policyResp.GetActualInstance()]. *)
Inductive PolicyInstance : Type :=
| PasswordPolicy (p : Policy)
| AuthenticatorEnrollmentPolicy (p : Policy)
| AccessPolicy (p : Policy)
| IdpDiscoveryPolicy (p : Policy)
| OktaSignOnPolicy (p : Policy)
| OtherPolicy (tag : string) (p : Policy).

(** [okta.ListPolicies200Response]: [None] is a nil actual instance. *)
Definition ListPolicies200Response := option PolicyInstance.

Record PolicyStructure : Type := {
  PS_Id : string;
  PS_Name : string;
  PS_Description : string;
  PS_Status : string;
  PS_Priority : Z;
  PS_System : bool;
  PS_Type : string;
  PS_Created : option Z;
  PS_LastUpdated : option Z;
  PS_Settings : option string;
  PS_Conditions : option string
}.

(** *** Rows and parent items *)

(** What [d.StreamListItem] is given. *)
Inductive Row : Type :=
| FactorRow (r : UserFactorInfo)
| AppUserRow (r : AppUserInfo)
| PolicyRow (r : PolicyStructure).

(** The dynamic type of [h.Item]. *)
Inductive Item : Type :=
| ItemUser (u : User)                                  (* *okta.User *)
| ItemPolicyStructure (p : PolicyStructure)            (* *PolicyStructure *)
| ItemPolicy (Id : option string)                      (* *okta.Policy *)
| ItemAuthorizationServerPolicy (Id : option string)
| ItemListPolicies200Response (r : ListPolicies200Response)
| ItemListApplications200ResponseInner (actual : option Application)
| ItemOther.

Record HydrateData : Type := { h_Item : option Item }.

(** ** The remote service *)

(** The requests the tables send; the arguments are exactly what each
    request carries. *)
Inductive Request : Type :=
| ListFactors (userId : string)
| GetUser (userId : string)
| GetFactor (userId factorId : string)
| ListApplicationUsers (appId : string) (limit : Z) (q : option string)
| GetApplicationUser (appId userId : string)
| ListPolicies (type_ : string)
| ListPolicyRules (policyId : string)
| ListPolicyMappings (policyId : string).

(** What a page request hands back: the decoded items and the error, as in
    [items, resp, err := req.Execute()]; [failure] is [None] for a nil
    error.  The items are there whatever the error says. *)
Record Answer (P : Type) : Type := {
  payload : P;
  failure : option error
}.
Arguments payload {P} a.
Arguments failure {P} a.

Definition ok {P} (p : P) : Answer P := {| payload := p; failure := None |}.

(** A paginated answer: the outcome of [Execute()] and of each later
    [resp.Next].  [resp.HasNextPage()] holds while [more] is not exhausted. *)
Record Listing (F P : Type) : Type := {
  first : Answer F;
  more : list (Answer P)
}.
Arguments first {F P} l.
Arguments more {F P} l.

Record Remote : Type := {
  Connect : option error;               (* Some err: Connect(ctx, d) fails *)
  doListFactors :
    string -> Listing (list ListFactors200ResponseInner)
                      (list ListFactors200ResponseInner);
  doGetUser : string -> error + User;
  doGetFactor : string -> string -> error + option UserFactor;
  doListApplicationUsers :
    string -> Z -> option string -> Listing (list AppUser) (list AppUser);
  doGetApplicationUser : string -> string -> error + option AppUser;
  doListPolicies :
    string -> Listing (option ListPolicies200Response) ListPolicies200Response;
  doListPolicyRules : string -> Listing (list string) (list string);
  doListPolicyMappings : string -> Listing (list string) (list string)
}.

(** ** Query execution: events, row budget *)

Inductive Event : Type :=
| EvConnect                             (* Connect(ctx, d) is called *)
| EvExecute (req : Request)             (* first page, or a single get *)
| EvNext                                (* resp.Next: a continuation page *)
| EvStream (row : Row).                 (* a row handed to the output *)

(** Rows still wanted by the caller; [None] when the query has no limit. *)
Definition Budget := option nat.

(** A hydrate computation: reads and updates the row budget and records
    what it did, in order. *)
Definition Hyd (A : Type) : Type := Budget -> A * list Event * Budget.

Definition ret {A} (a : A) : Hyd A := fun b => (a, [], b).

Definition bind {A B} (m : Hyd A) (k : A -> Hyd B) : Hyd B :=
  fun b =>
    let '(a, ev1, b1) := m b in
    let '(r, ev2, b2) := k a b1 in
    (r, ev1 ++ ev2, b2).

Definition tell (e : Event) : Hyd unit := fun b => (tt, [e], b).

Declare Scope hyd_scope.
Delimit Scope hyd_scope with hyd.
Notation "x <- m ;; k" := (bind m (fun x => k))
  (at level 61, m at next level, right associativity) : hyd_scope.
Notation "m ;; k" := (bind m (fun _ => k))
  (at level 61, right associativity) : hyd_scope.
Local Open Scope hyd_scope.

Definition result {A} (r : A * list Event * Budget) : A := fst (fst r).
Definition events {A} (r : A * list Event * Budget) : list Event := snd (fst r).
Definition remaining {A} (r : A * list Event * Budget) : Budget := snd r.

(** Modelled from the spec: the row sink of the host SDK ([StreamListItem])
    is not part of the sources.  Emitting consumes one unit of the budget;
    with an exhausted budget nothing is output; an unbounded budget never
    decrements. *)
Definition StreamListItem (row : Row) : Hyd unit :=
  fun b =>
    match b with
    | None => (tt, [EvStream row], None)
    | Some O => (tt, [], Some O)
    | Some (S n) => (tt, [EvStream row], Some n)
    end.

(** Modelled from the spec: [d.RowsRemaining(ctx)] of the host SDK, the
    remaining budget; an unbounded budget reads as the largest [int32].
    Cancellation of the context is not modelled. *)
Definition RowsRemaining : Hyd Z :=
  fun b =>
    match b with
    | None => (2147483647%Z, [], b)
    | Some n => (Z.of_nat n, [], b)
    end.

(** The rows output by a run, in order. *)
Fixpoint rows (evs : list Event) : list Row :=
  match evs with
  | [] => []
  | EvStream r :: rest => r :: rows rest
  | _ :: rest => rows rest
  end.

(** The requests for a page (first or continuation) made by a run. *)
Definition isFetch (e : Event) : bool :=
  match e with
  | EvExecute _ | EvNext => true
  | _ => false
  end.

(** *** The two loops shared by the list functions

    Every list function streams a page with the same [for ... range] loop
    and walks the continuation pages with the same [for resp.HasNextPage()]
    loop; they are written once, over the row built from an item. *)

(** [d.StreamListItem(ctx, row)] followed by
    [if d.RowsRemaining(ctx) == 0 { return nil, nil }]; the boolean tells
    whether the function returned. *)
Definition streamAndCheck (row : Row) : Hyd bool :=
  StreamListItem row ;;
  n <- RowsRemaining ;;
  ret (n =? 0)%Z.

(** [if <guard> { stream; check }], where the row is [None] when the guard
    fails. *)
Definition streamGuarded (row : option Row) : Hyd bool :=
  match row with
  | Some r => streamAndCheck r
  | None => ret false
  end.

(** [for _, x := range xs { if <guard> { stream; check } }], where [rowOf x]
    is [None] when the guard skips [x]. *)
Fixpoint rangeStream {A} (rowOf : A -> option Row) (xs : list A) : Hyd bool :=
  match xs with
  | [] => ret false
  | x :: rest =>
      returned <- streamGuarded (rowOf x) ;;
      if returned then ret true else rangeStream rowOf rest
  end.

(** [for resp.HasNextPage() { resp, err = resp.Next(&next); if err != nil
    { return nil, err }; <body> }], then the final [return nil, err] with a
    nil [err]. *)
Fixpoint paging {P A} (body : P -> Hyd bool) (pages : list (Answer P))
  : Hyd (Result A) :=
  match pages with
  | [] => ret (Ret None)
  | page :: rest =>
      tell EvNext ;;
      match failure page with
      | Some err => ret (Fail err)
      | None =>
          returned <- body (payload page) ;;
          if returned then ret (Ret None) else paging body rest
      end
  end.

(** ** Union resolution *)

(** [getFactorDetails]: the twelve typed cases have the same body. *)
Definition getFactorDetails (factor : FactorInstance) : OktaFactor :=
  match factor with
  | TypedFactor _ uf profile => {| OF_UserFactor := uf; OF_Profile := profile |}
  | UserFactorPtr f => {| OF_UserFactor := f; OF_Profile := Factor_Profile f |}
  | UserFactorVal f => {| OF_UserFactor := f; OF_Profile := Factor_Profile f |}
  | OtherFactor _ => emptyOktaFactor
  end.

Definition getStringPtrVal (s : option string) : string :=
  match s with Some v => v | None => "" end.

Definition getInt32PtrVal (i : option Z) : Z :=
  match i with Some v => v | None => 0%Z end.

Definition getBoolPtrVal (b : option bool) : bool :=
  match b with Some v => v | None => false end.

Definition policyStructureOf (p : Policy) : PolicyStructure :=
  {| PS_Id := getStringPtrVal (Policy_Id p);
     PS_Name := Policy_Name p;
     PS_Description := getStringPtrVal (Policy_Description p);
     PS_Status := getStringPtrVal (Policy_Status p);
     PS_Priority := getInt32PtrVal (Policy_Priority p);
     PS_System := getBoolPtrVal (Policy_System p);
     PS_Type := Policy_Type p;
     PS_Created := Policy_Created p;
     PS_LastUpdated := Policy_LastUpdated p;
     PS_Settings := Policy_Settings p;
     PS_Conditions := None |}.

(** [convertPolicyRespToStruct]: the argument is a pointer, [None] when
    nil; the two cases build the same structure. *)
Definition convertPolicyRespToStruct (policyResp : option ListPolicies200Response)
  : option PolicyStructure :=
  match policyResp with
  | None => None
  | Some None => None
  | Some (Some (PasswordPolicy p)) => Some (policyStructureOf p)
  | Some (Some (AuthenticatorEnrollmentPolicy p)) => Some (policyStructureOf p)
  | Some (Some _) => None
  end.

(** ** Hydrate functions *)

(** [int32(x)] for an [int64] [x]. *)
Definition int32 (x : Z) : Z := ((x + 2147483648) mod 4294967296 - 2147483648)%Z.

Section Tables.

(** Helpers of the plugin declared outside the translated files.
    [getListValues] yields the strings of a list qualifier (composed here
    with [types.StringValueSlice]); [structToMap] turns a rule into a
    map. *)
Variable getListValues : option (list QualValue) -> list string.
Variable structToMap : string -> error + string.

(** *** okta_factor *)

(** Lines 79-85 of [listOktaFactors]: the parent's key and login; [None]
    when the type assertion or the dereference panics. *)
Definition parentUser (h : HydrateData) : option (string * string) :=
  match h_Item h with
  | None => Some ("", "")
  | Some (ItemUser userData) =>
      match User_Id userData with
      | Some userId => Some (userId, GetLogin (User_Profile userData))
      | None => None
      end
  | Some _ => None
  end.

(** Lines 87-98 of [listOktaFactors]: [true] when the qualifier on
    [user_id] makes the function return [(nil, nil)]. *)
Definition userIdQualRejects (d : QueryData) (userId : string) : bool :=
  match EqualsQual d "user_id" with
  | Some _ =>
      if negb (EqualsQualString d "user_id" =? "") then
        negb (EqualsQualString d "user_id" =? "")
        && negb (EqualsQualString d "user_id" =? userId)
      else if (0 <? length (getListValues (GetListValue (EqualsQual d "user_id"))))%nat then
        negb (Strings.slicesContains
                (getListValues (GetListValue (EqualsQual d "user_id"))) userId)
      else false
  | None => false
  end.

Definition factorRow (userId userName : string)
           (factor : ListFactors200ResponseInner) : option Row :=
  match factor with
  | Some instance =>
      Some (FactorRow {| UserId := userId; UserName := userName;
                         Factor := getFactorDetails instance |})
  | None => None
  end.

Definition listOktaFactors (okta : Remote) (d : QueryData) (h : HydrateData)
  : Hyd (Result Row) :=
  tell EvConnect ;;
  match Connect okta with
  | Some err => ret (Fail err)
  | None =>
      match parentUser h with
      | None => ret Panic
      | Some (userId, userName) =>
          if userIdQualRejects d userId then ret (Ret None)
          else if userId =? "" then ret (Ret None)
          else
            tell (EvExecute (ListFactors userId)) ;;
            match failure (first (doListFactors okta userId)) with
            | Some err =>
                if Strings.Contains err "Not found" then ret (Ret None)
                else ret (Fail err)
            | None =>
                returned <- rangeStream (factorRow userId userName)
                              (payload (first (doListFactors okta userId))) ;;
                if returned then ret (Ret None)
                else paging (rangeStream (factorRow userId userName))
                            (more (doListFactors okta userId))
            end
      end
  end.

Definition getOktaFactor (okta : Remote) (d : QueryData) (h : HydrateData)
  : Hyd (Result Row) :=
  let userId := GetStringValue (EqualsQual d "user_id") in
  let factorId := GetStringValue (EqualsQual d "id") in
  if (userId =? "") || (factorId =? "") then ret (Ret None)
  else
    tell EvConnect ;;
    match Connect okta with
    | Some err => ret (Fail err)
    | None =>
        tell (EvExecute (GetUser userId)) ;;
        match doGetUser okta userId with
        | inl err =>
            if Strings.Contains err "Not found" then ret (Ret None)
            else ret (Fail err)
        | inr user =>
            match User_Profile user with
            | None => ret Panic                      (* *user.Profile *)
            | Some userProfile =>
                tell (EvExecute (GetFactor userId factorId)) ;;
                match doGetFactor okta userId factorId with
                | inl err => ret (Fail err)
                | inr None => ret (Ret None)
                | inr (Some res) =>
                    match Login userProfile with
                    | None => ret Panic              (* *userName *)
                    | Some userName =>
                        ret (Ret (Some (FactorRow
                          {| UserId := userId; UserName := userName;
                             Factor := {| OF_UserFactor := res;
                                          OF_Profile := Factor_Profile res |} |})))
                    end
                end
            end
        end
    end.

(** *** okta_app_assigned_user *)

(** Lines 76-121 of [listApplicationAssignedUsers]: the nine cases of the
    inner switch have the same body. *)
Definition appIdOf (h : HydrateData) : string :=
  match h_Item h with
  | Some (ItemListApplications200ResponseInner (Some (KnownApplication _ (Some id)))) => id
  | _ => ""
  end.

(** Lines 137-144: the search term sent as [q]. *)
Definition searchTerm (d : QueryData) : string :=
  if negb (EqualsQualString d "user_name" =? "") then EqualsQualString d "user_name"
  else if negb (EqualsQualString d "first_name" =? "") then EqualsQualString d "first_name"
  else if negb (EqualsQualString d "email" =? "") then EqualsQualString d "email"
  else "".

(** Lines 135 and 146-155: the page size sent with the request. *)
Definition pageLimit (limit : option Z) : Z :=
  let maxLimit := 500%Z in
  let maxLimit :=
    match limit with
    | Some l => if (l <? maxLimit)%Z then l else maxLimit
    | None => maxLimit
    end in
  int32 maxLimit.

Definition appUserRow (appId : string) (user : AppUser) : option Row :=
  Some (AppUserRow {| AppId := appId; AppUser_ := user |}).

Definition appUsersRequest (d : QueryData) (appId : string) : Request :=
  ListApplicationUsers appId (pageLimit (Limit d))
    (if searchTerm d =? "" then None else Some (searchTerm d)).

Definition appUsersAnswer (okta : Remote) (d : QueryData) (appId : string)
  : Listing (list AppUser) (list AppUser) :=
  doListApplicationUsers okta appId (pageLimit (Limit d))
    (if searchTerm d =? "" then None else Some (searchTerm d)).

Definition listApplicationAssignedUsers
           (okta : Remote) (d : QueryData) (h : HydrateData)
  : Hyd (Result Row) :=
  let appId := appIdOf h in
  if appId =? "" then ret (Ret None)
  else
    tell EvConnect ;;
    match Connect okta with
    | Some err => ret (Fail err)
    | None =>
        tell (EvExecute (appUsersRequest d appId)) ;;
        match failure (first (appUsersAnswer okta d appId)) with
        | Some err => ret (Fail err)
        | None =>
            returned <- rangeStream (appUserRow appId)
                          (payload (first (appUsersAnswer okta d appId))) ;;
            if returned then ret (Ret None)
            else paging (rangeStream (appUserRow appId))
                        (more (appUsersAnswer okta d appId))
        end
    end.

Definition getApplicationAssignedUser
           (okta : Remote) (d : QueryData) (h : HydrateData)
  : Hyd (Result Row) :=
  let appId := GetStringValue (EqualsQual d "app_id") in
  let userId := GetStringValue (EqualsQual d "id") in
  if (appId =? "") || (userId =? "") then ret (Ret None)
  else
    tell EvConnect ;;
    match Connect okta with
    | Some err => ret (Fail err)
    | None =>
        tell (EvExecute (GetApplicationUser appId userId)) ;;
        match doGetApplicationUser okta appId userId with
        | inl err => ret (Fail err)
        | inr None => ret Panic                      (* *user *)
        | inr (Some user) =>
            ret (Ret (Some (AppUserRow {| AppId := appId; AppUser_ := user |})))
        end
    end.

(** *** okta_password_policy, okta_mfa_policy *)

Definition policyTypeOf (d : QueryData) : string :=
  if TableName d =? "okta_password_policy" then "PASSWORD"
  else if TableName d =? "okta_mfa_policy" then "MFA_ENROLL"
  else "".

Definition policyRow (policyResp : option ListPolicies200Response) : option Row :=
  match convertPolicyRespToStruct policyResp with
  | Some policyStruct => Some (PolicyRow policyStruct)
  | None => None
  end.

Definition listPolicies (okta : Remote) (d : QueryData) (h : HydrateData)
  : Hyd (Result Row) :=
  tell EvConnect ;;
  match Connect okta with
  | Some err => ret (Fail err)
  | None =>
      tell (EvExecute (ListPolicies (policyTypeOf d))) ;;
      match failure (first (doListPolicies okta (policyTypeOf d))) with
      | Some err => ret (Fail err)
      | None =>
          returned <- streamGuarded
                        (policyRow (payload (first (doListPolicies okta (policyTypeOf d))))) ;;
          if returned then ret (Ret None)
          else paging (fun nextPolicy => streamGuarded (policyRow (Some nextPolicy)))
                      (more (doListPolicies okta (policyTypeOf d)))
      end
  end.

(** *** The enrichment hydrates of the policy tables *)

(** [for resp.HasNextPage() { ...; acc = append(acc, next...) }]. *)
Fixpoint appendPages {A} (acc : list A) (pages : list (Answer (list A)))
  : Hyd (error + list A) :=
  match pages with
  | [] => ret (inr acc)
  | page :: rest =>
      tell EvNext ;;
      match failure page with
      | Some err => ret (inl err)
      | None => appendPages (acc ++ payload page) rest
      end
  end.

(** The loop over [rules] calling [structToMap], stopping at the first
    error. *)
Fixpoint mapRules (acc : list string) (rules : list string)
  : error + list string :=
  match rules with
  | [] => inr acc
  | rule :: rest =>
      match structToMap rule with
      | inl err => inl err
      | inr res => mapRules (acc ++ [res]) rest
      end
  end.

(** The policy id switch of [getOktaPolicyRules]; [None] when a nil id is
    dereferenced. *)
Definition policyIdForRules (item : Item) : option string :=
  match item with
  | ItemPolicyStructure p => Some (PS_Id p)
  | ItemPolicy Id => Id
  | ItemAuthorizationServerPolicy Id => Id
  | ItemListPolicies200Response (Some (AccessPolicy p)) => Policy_Id p
  | ItemListPolicies200Response (Some (IdpDiscoveryPolicy p)) => Policy_Id p
  | ItemListPolicies200Response (Some (AuthenticatorEnrollmentPolicy p)) => Policy_Id p
  | ItemListPolicies200Response (Some (OktaSignOnPolicy p)) => Policy_Id p
  | ItemListPolicies200Response (Some (PasswordPolicy p)) => Policy_Id p
  | _ => Some ""
  end.

Definition getOktaPolicyRules (okta : Remote) (d : QueryData) (h : HydrateData)
  : Hyd (Result (list string)) :=
  match h_Item h with
  | None => ret (Ret None)
  | Some item =>
      match policyIdForRules item with
      | None => ret Panic
      | Some policyId =>
          if policyId =? "" then ret (Ret None)
          else
            tell EvConnect ;;
            match Connect okta with
            | Some err => ret (Fail err)
            | None =>
                tell (EvExecute (ListPolicyRules policyId)) ;;
                match failure (first (doListPolicyRules okta policyId)) with
                | Some err => ret (Fail err)
                | None =>
                    paged <- appendPages
                               ([] ++ payload (first (doListPolicyRules okta policyId)))
                               (more (doListPolicyRules okta policyId)) ;;
                    match paged with
                    | inl err => ret (Fail err)
                    | inr rules =>
                        match mapRules [] rules with
                        | inl err => ret (Fail err)
                        | inr allRules => ret (Ret (Some allRules))
                        end
                    end
                end
            end
      end
  end.

(** The policy id switch of [getOktaPolicyAssociatedResources]. *)
Definition policyIdForResources (item : Item) : option string :=
  match item with
  | ItemPolicyStructure p => Some (PS_Id p)
  | ItemPolicy Id => Id
  | ItemAuthorizationServerPolicy Id => Id
  | _ => Some ""
  end.

Definition getOktaPolicyAssociatedResources
           (okta : Remote) (d : QueryData) (h : HydrateData)
  : Hyd (Result (list string)) :=
  match h_Item h with
  | None => ret (Ret None)
  | Some item =>
      match policyIdForResources item with
      | None => ret Panic
      | Some policyId =>
          if policyId =? "" then ret (Ret None)
          else
            tell EvConnect ;;
            match Connect okta with
            | Some err => ret (Fail err)
            | None =>
                tell (EvExecute (ListPolicyMappings policyId)) ;;
                match failure (first (doListPolicyMappings okta policyId)) with
                | Some err =>
                    if Strings.Contains (Strings.ToLower err) "not found"
                       || Strings.Contains err "404"
                    then ret (Ret None)
                    else ret (Fail err)
                | None =>
                    paged <- appendPages
                               ([] ++ payload (first (doListPolicyMappings okta policyId)))
                               (more (doListPolicyMappings okta policyId)) ;;
                    match paged with
                    | inl err => ret (Fail err)
                    | inr mappings => ret (Ret (Some mappings))
                    end
                end
            end
      end
  end.

End Tables.

(** ** The Get configuration of a table *)

(** Modelled from the spec: the error classifier [isNotFoundError] is
    declared outside the translated files.  An error is ignorable when its
    message carries one of the substrings of the table it is given. *)
Definition isNotFoundError (notFoundErrors : list string) (err : error) : bool :=
  existsb (fun item => Strings.Contains err item) notFoundErrors.

(** [plugin.GetConfig]: the hydrate function and [ShouldIgnoreError]. *)
Record GetConfig : Type := {
  Hydrate : Remote -> QueryData -> HydrateData -> Hyd (Result Row);
  ShouldIgnoreError : error -> bool
}.

(** The [Get] entries of [tableOktaFactor] and
    [tableOktaApplicationAssignedUser]. *)
Definition tableOktaFactor_Get : GetConfig :=
  {| Hydrate := getOktaFactor;
     ShouldIgnoreError := isNotFoundError ["Not found"; "Invalid Factor"] |}.

Definition tableOktaApplicationAssignedUser_Get : GetConfig :=
  {| Hydrate := getApplicationAssignedUser;
     ShouldIgnoreError := isNotFoundError ["Not found"] |}.

(** Modelled from the spec: how the host SDK runs a Get is not part of the
    sources.  An error of the hydrate function that the configuration
    classifies as ignorable yields no row and no error; any other outcome is
    passed on. *)
Definition runGet (cfg : GetConfig) (okta : Remote) (d : QueryData)
           (h : HydrateData) : Hyd (Result Row) :=
  r <- Hydrate cfg okta d h ;;
  match r with
  | Fail err => if ShouldIgnoreError cfg err then ret (Ret None) else ret (Fail err)
  | _ => ret r
  end.

(** ** Reading a run *)

(** A run respects the row limit [n] when it outputs at most [n] rows and
    nothing at all happens after the row that uses up the limit. *)
Fixpoint within (n : nat) (evs : list Event) : bool :=
  match evs with
  | [] => true
  | EvStream _ :: rest =>
      match n with
      | O => false
      | S O => match rest with [] => true | _ :: _ => false end
      | S n' => within n' rest
      end
  | _ :: rest => within n rest
  end.

Definition respects_limit (n : nat) (evs : list Event) : Prop :=
  length (rows evs) <= n /\
  forall pre row post,
    evs = pre ++ EvStream row :: post ->
    length (rows (pre ++ [EvStream row])) = n ->
    post = [].

(** A loop body or a loop, started with [n] rows left: the budget it leaves
    is what the rows it output have not used, its run respects the limit,
    and it falls through (does not return) only with budget left, or when
    there was none to begin with. *)
Definition disciplined (m : Hyd bool) : Prop :=
  forall n,
    remaining (m (Some n)) = Some (n - length (rows (events (m (Some n))))) /\
    within n (events (m (Some n))) = true /\
    (result (m (Some n)) = false ->
     length (rows (events (m (Some n)))) < n \/ n = 0).

Definition disciplined_result {A} (m : Hyd (Result A)) : Prop :=
  forall n,
    remaining (m (Some n)) = Some (n - length (rows (events (m (Some n))))) /\
    within n (events (m (Some n))) = true.

(** ** More ways to read a run *)

(** Connecting, or executing a request (as opposed to following a page
    cursor or emitting a row). *)
Definition isRequest (e : Event) : bool :=
  match e with
  | EvConnect | EvExecute _ => true
  | _ => false
  end.

(** The rows a page gives rise to, in the order of its items. *)
Definition rowsOf {A} (rowOf : A -> option Row) (xs : list A) : list Row :=
  flat_map (fun x => match rowOf x with Some r => [r] | None => [] end) xs.

(** The trace of the continuation pages: each page is requested, then its
    rows are output, then the next page is requested. *)
Fixpoint pagesTrace {P} (rowsOfPage : P -> list Row) (pages : list P) : list Event :=
  match pages with
  | [] => []
  | p :: rest => EvNext :: map EvStream (rowsOfPage p) ++ pagesTrace rowsOfPage rest
  end.

Definition guardedRows (row : option Row) : list Row :=
  match row with Some r => [r] | None => [] end.

Definition succeeded {P} (a : Answer P) : Prop := failure a = None.

(** [listOktaFactors] gets as far as the request for the parent's factors. *)
Definition reachesFactors glv (okta : Remote) (d : QueryData) (h : HydrateData)
           (userId userName : string) : Prop :=
  Connect okta = None /\
  parentUser h = Some (userId, userName) /\
  userIdQualRejects glv d userId = false /\
  userId <> "".

(** [listApplicationAssignedUsers] gets as far as the request for the
    application's users. *)
Definition reachesAppUsers (okta : Remote) (h : HydrateData) : Prop :=
  Connect okta = None /\ appIdOf h <> "".

Definition factorInfoRow (userId userName : string) (instance : FactorInstance) : Row :=
  FactorRow {| UserId := userId; UserName := userName;
               Factor := getFactorDetails instance |}.

Definition appUserInfoRow (appId : string) (user : AppUser) : Row :=
  AppUserRow {| AppId := appId; AppUser_ := user |}.

(** A run that ends on a request: nothing was output after it. *)
Definition endsOnRequest (evs : list Event) : Prop :=
  exists pre e, evs = pre ++ [e] /\ (isRequest e = true \/ e = EvNext).

(** The [UserFactor] a recognized factor instance carries. *)
Definition embeddedFactor (instance : FactorInstance) : option UserFactor :=
  match instance with
  | TypedFactor _ uf _ => Some uf
  | UserFactorPtr uf => Some uf
  | UserFactorVal uf => Some uf
  | OtherFactor _ => None
  end.

(** The policy a recognized policy instance carries. *)
Definition recognizedPolicy (instance : PolicyInstance) : option Policy :=
  match instance with
  | PasswordPolicy p => Some p
  | AuthenticatorEnrollmentPolicy p => Some p
  | _ => None
  end.

Definition reachesGetFactor (okta : Remote) (d : QueryData) : Prop :=
  Connect okta = None /\
  GetStringValue (EqualsQual d "user_id") <> "" /\
  GetStringValue (EqualsQual d "id") <> "".

Definition reachesGetAppUser (okta : Remote) (d : QueryData) : Prop :=
  Connect okta = None /\
  GetStringValue (EqualsQual d "app_id") <> "" /\
  GetStringValue (EqualsQual d "id") <> "".

Definition reachesPolicyFetch (okta : Remote) (h : HydrateData)
           (policyIdOf : Item -> option string) (policyId : string) : Prop :=
  Connect okta = None /\
  (exists item, h_Item h = Some item /\ policyIdOf item = Some policyId) /\
  policyId <> "".

(** ** Sample data for concrete runs *)

(** Modelled from the spec: [getListValues] is declared outside the
    translated files; a set-membership qualifier is the list of its values.
    This instance keeps the non-empty string values, in order. *)
Fixpoint stringValuesOf (vs : list QualValue) : list string :=
  match vs with
  | [] => []
  | v :: rest =>
      if GetStringValue (Some v) =? "" then stringValuesOf rest
      else GetStringValue (Some v) :: stringValuesOf rest
  end.

Definition getListValues_strings (l : option (list QualValue)) : list string :=
  match l with
  | Some vs => stringValuesOf vs
  | None => []
  end.

Definition emptyListing {A} : Listing (list A) (list A) :=
  {| first := ok []; more := [] |}.

(** A remote whose connection answers [conn] and whose factor lists are
    [factors]; every other list is empty and every get is not found. *)
Definition factorRemote (conn : option error)
           (factors : string -> Listing (list ListFactors200ResponseInner)
                                        (list ListFactors200ResponseInner))
  : Remote :=
  {| Connect := conn;
     doListFactors := factors;
     doGetUser := fun _ => inl "Not found";
     doGetFactor := fun _ _ => inl "Not found";
     doListApplicationUsers := fun _ _ _ => emptyListing;
     doGetApplicationUser := fun _ _ => inl "Not found";
     doListPolicies := fun _ => {| first := ok None; more := [] |};
     doListPolicyRules := fun _ => emptyListing;
     doListPolicyMappings := fun _ => emptyListing |}.

Definition parentUserItem (id login : string) : HydrateData :=
  {| h_Item := Some (ItemUser {| User_Id := Some id;
                                 User_Profile := Some {| Login := Some login |} |}) |}.

Definition factorQuery (quals : list (string * QualValue)) : QueryData :=
  {| TableName := "okta_factor"; EqualsQuals := quals; Limit := None |}.

Definition smsFactor (id : string) : ListFactors200ResponseInner :=
  Some (TypedFactor FactorSMS
          {| Factor_Id := Some id; FactorType := Some "sms";
             Provider := Some "OKTA"; Factor_Status := Some "ACTIVE";
             Factor_Profile := None |}
          (Some "{}")).

Definition oneFactorEach (userId : string)
  : Listing (list ListFactors200ResponseInner) (list ListFactors200ResponseInner) :=
  {| first := ok [smsFactor (userId ++ "-sms")]; more := [] |}.

(** Ten items, numbered. *)
Definition ten {A} (item : string -> A) : list A :=
  map item ["0"; "1"; "2"; "3"; "4"; "5"; "6"; "7"; "8"; "9"].

Definition smsInstance (id : string) : FactorInstance :=
  TypedFactor FactorSMS
    {| Factor_Id := Some id; FactorType := Some "sms"; Provider := Some "OKTA";
       Factor_Status := Some "ACTIVE"; Factor_Profile := None |}
    (Some "{}").

Definition appUserNamed (name : string) : AppUser :=
  {| AppUser_Id := Some ("id-" ++ name)%string; Credentials_UserName := name;
     Profile_email := (name ++ "@example.com")%string; Profile_given_name := name |}.

Definition parentApplication (k : ApplicationKind) (id : string) : HydrateData :=
  {| h_Item := Some (ItemListApplications200ResponseInner
                       (Some (KnownApplication k (Some id)))) |}.

(** A remote answering every factor list and every user list with three
    pages of ten. *)
Definition threePagesRemote : Remote :=
  {| Connect := None;
     doListFactors := fun _ =>
       {| first := ok (map Some (ten (fun n => smsInstance ("a" ++ n))));
          more := [ ok (map Some (ten (fun n => smsInstance ("b" ++ n))));
                    ok (map Some (ten (fun n => smsInstance ("c" ++ n)))) ] |};
     doGetUser := fun _ => inl "Not found";
     doGetFactor := fun _ _ => inl "Not found";
     doListApplicationUsers := fun _ _ _ =>
       {| first := ok (ten (fun n => appUserNamed ("a" ++ n)));
          more := [ ok (ten (fun n => appUserNamed ("b" ++ n)));
                    ok (ten (fun n => appUserNamed ("c" ++ n))) ] |};
     doGetApplicationUser := fun _ _ => inl "Not found";
     doListPolicies := fun _ => {| first := ok None; more := [] |};
     doListPolicyRules := fun _ => emptyListing;
     doListPolicyMappings := fun _ => emptyListing |}.

Definition appUserQuery (quals : list (string * QualValue)) (limit : option Z)
  : QueryData :=
  {| TableName := "okta_app_assigned_user"; EqualsQuals := quals; Limit := limit |}.

(** A server that answers the search term with the users whose name starts
    with it. *)
Definition prefixSearchRemote : Remote :=
  {| Connect := None;
     doListFactors := fun _ => emptyListing;
     doGetUser := fun _ => inl "Not found";
     doGetFactor := fun _ _ => inl "Not found";
     doListApplicationUsers := fun _ _ q =>
       {| first := ok [appUserNamed "alice"; appUserNamed "alice2"]; more := [] |};
     doGetApplicationUser := fun _ _ => inl "Not found";
     doListPolicies := fun _ => {| first := ok None; more := [] |};
     doListPolicyRules := fun _ => emptyListing;
     doListPolicyMappings := fun _ => emptyListing |}.

Definition notFoundMessage : error :=
  "the API returned an error: Not found: Resource not found: u1 (User)".

(** A remote whose second page of factors, and of users, fails with a
    "Not found" error although items were decoded. *)
Definition failingSecondPageRemote : Remote :=
  {| Connect := None;
     doListFactors := fun _ =>
       {| first := ok [Some (smsInstance "f1")];
          more := [ {| payload := [Some (smsInstance "f2")];
                       failure := Some notFoundMessage |};
                    ok [Some (smsInstance "f3")] ] |};
     doGetUser := fun _ => inl "Not found";
     doGetFactor := fun _ _ => inl "Not found";
     doListApplicationUsers := fun _ _ _ =>
       {| first := ok [appUserNamed "alice"];
          more := [ {| payload := [appUserNamed "bob"];
                       failure := Some notFoundMessage |} ] |};
     doGetApplicationUser := fun _ _ => inl "Not found";
     doListPolicies := fun _ => {| first := ok None; more := [] |};
     doListPolicyRules := fun _ => emptyListing;
     doListPolicyMappings := fun _ => emptyListing |}.

Definition policyWithId (id : option string) (name : string) : Policy :=
  {| Policy_Id := id; Policy_Name := name; Policy_Description := None;
     Policy_Status := Some "ACTIVE"; Policy_Priority := Some 1%Z;
     Policy_System := Some false; Policy_Type := "PASSWORD";
     Policy_Created := None; Policy_LastUpdated := None;
     Policy_Settings := None |}.

Definition factorNotFound : error :=
  "the API returned an error: Not found: Resource not found: f9 (UserFactor)".

(** A remote that knows the user u1 but none of the factors, and no
    application user. *)
Definition missingFactorRemote : Remote :=
  {| Connect := None;
     doListFactors := fun _ => emptyListing;
     doGetUser := fun _ =>
       inr {| User_Id := Some "u1";
              User_Profile := Some {| Login := Some "ann" |} |};
     doGetFactor := fun _ _ => inl factorNotFound;
     doListApplicationUsers := fun _ _ _ => emptyListing;
     doGetApplicationUser := fun _ _ => inl notFoundMessage;
     doListPolicies := fun _ => {| first := ok None; more := [] |};
     doListPolicyRules := fun _ => emptyListing;
     doListPolicyMappings := fun _ => emptyListing |}.

Definition factorGetQuery : QueryData :=
  factorQuery [("id", StringValue "f9"); ("user_id", StringValue "u1")].

Definition appUserGetQuery : QueryData :=
  appUserQuery [("id", StringValue "u1"); ("app_id", StringValue "app1")] None.

Definition mappingsNotFound : error :=
  "the API returned an error: Not found: Resource not found: p1 (Policy)".

(** A remote on which both the rules and the mappings of a policy are not
    found. *)
Definition missingPolicyRemote : Remote :=
  {| Connect := None;
     doListFactors := fun _ => emptyListing;
     doGetUser := fun _ => inl "Not found";
     doGetFactor := fun _ _ => inl "Not found";
     doListApplicationUsers := fun _ _ _ => emptyListing;
     doGetApplicationUser := fun _ _ => inl "Not found";
     doListPolicies := fun _ => {| first := ok None; more := [] |};
     doListPolicyRules := fun _ =>
       {| first := {| payload := []; failure := Some mappingsNotFound |}; more := [] |};
     doListPolicyMappings := fun _ =>
       {| first := {| payload := []; failure := Some mappingsNotFound |}; more := [] |} |}.

Definition policyItem (id : string) : HydrateData :=
  {| h_Item := Some (ItemPolicyStructure
       {| PS_Id := id; PS_Name := "one"; PS_Description := ""; PS_Status := "ACTIVE";
          PS_Priority := 1%Z; PS_System := false; PS_Type := "PASSWORD";
          PS_Created := None; PS_LastUpdated := None; PS_Settings := None;
          PS_Conditions := None |}) |}.

Definition policyQuery : QueryData :=
  {| TableName := "okta_password_policy"; EqualsQuals := []; Limit := None |}.

(** A row of the sign-on policy table: an item of the union type. *)
Definition signonPolicyItem (id : string) : HydrateData :=
  {| h_Item := Some (ItemListPolicies200Response
                       (Some (OktaSignOnPolicy (policyWithId (Some id) "signon")))) |}.

(** ** A run with a row limit against the run without *)

(** A loop body or a loop, with and without a limit.  Without a limit it
    falls through and leaves the budget unbounded.  With [n] rows left it
    outputs the first [n] of the rows it outputs without a limit; it returns
    only with the budget used up, and falls through only after all its
    rows. *)
Definition prefixing (m : Hyd bool) : Prop :=
  result (m None) = false /\
  remaining (m None) = None /\
  forall n,
    rows (events (m (Some n))) = firstn n (rows (events (m None))) /\
    remaining (m (Some n)) = Some (n - length (rows (events (m (Some n))))) /\
    (result (m (Some n)) = true -> length (rows (events (m (Some n)))) = n) /\
    (result (m (Some n)) = false ->
     rows (events (m (Some n))) = rows (events (m None))).

(** A list function, with and without a limit: the rows under the limit [n]
    are the first [n] rows of the run without limit, and the outcome is
    [(nil, nil)] or that of the run without limit. *)
Definition prefixing_result {A} (m : Hyd (Result A)) : Prop :=
  forall n,
    rows (events (m (Some n))) = firstn n (rows (events (m None))) /\
    (result (m (Some n)) = Ret None \/ result (m (Some n)) = result (m None)).

(** The connections and requests of a run, in order. *)
Definition requestsOf (evs : list Event) : list Event := filter isRequest evs.

(** ** The logging transport *)

(** [http.Request], the part that is logged; [URL_String] is the rendering
    [req.URL.String()], taken as given. *)
Record HttpRequest : Type := {
  Method : string;
  URL_Path : string;
  URL_RawQuery : string;
  URL_String : string
}.

Record HttpResponse : Type := { StatusCode : Z }.

(** [http.RoundTripper]: the response pointer and the error it returns. *)
Definition RoundTripper := HttpRequest -> option HttpResponse * option error.

Inductive LogValue : Type :=
| LogString (s : string)
| LogInt (z : Z)
| LogErr (err : error).

(** A line written with [logger.Info] or [logger.Error]: the message and
    the key-value pairs. *)
Inductive LogLine : Type :=
| LogInfo (msg : string) (fields : list (string * LogValue))
| LogError (msg : string) (fields : list (string * LogValue)).

(** [LoggingRoundTripper]; the context only serves to find the logger. *)
Record LoggingRoundTripper : Type := { wrapped : RoundTripper }.

(** What a call gives: the values returned, or a panic. *)
Inductive Outcome (A : Type) : Type :=
| Returned (a : A)
| Panicked.
Arguments Returned {A} a.
Arguments Panicked {A}.

(** Lines 21-25 of [RoundTrip]: method and path, then the query if any. *)
Definition endpointOf (req : HttpRequest) : string :=
  let endpoint := (Method req ++ " " ++ URL_Path req)%string in
  if negb (URL_RawQuery req =? "") then (endpoint ++ "?" ++ URL_RawQuery req)%string
  else endpoint.

(** [LoggingRoundTripper.RoundTrip]: what is returned and what is
    logged.  Reading [resp.StatusCode] of a nil response panics. *)
Definition RoundTrip (l : LoggingRoundTripper) (req : HttpRequest)
  : Outcome (option HttpResponse * option error) * list LogLine :=
  let endpoint := endpointOf req in
  let call := LogInfo "okta_api_call"
                [("endpoint", LogString endpoint);
                 ("method", LogString (Method req));
                 ("url", LogString (URL_String req))] in
  let '(resp, err) := wrapped l req in
  match err with
  | Some e =>
      (Returned (resp, err),
       [call; LogError "okta_api_call_error"
                [("endpoint", LogString endpoint); ("error", LogErr e)]])
  | None =>
      match resp with
      | Some r =>
          (Returned (resp, err),
           [call; LogInfo "okta_api_response"
                    [("endpoint", LogString endpoint);
                     ("status", LogInt (StatusCode r))]])
      | None => (Panicked, [call])
      end
  end.

(** [NewLoggingRoundTripper]: a nil transport is replaced by the default
    one, [http.DefaultTransport], here [defaultTransport]. *)
Definition NewLoggingRoundTripper (defaultTransport : RoundTripper)
           (wrapped : option RoundTripper) : LoggingRoundTripper :=
  {| wrapped := match wrapped with
                | None => defaultTransport
                | Some w => w
                end |}.

(** ** More sample data *)

Definition unknownApplication : HydrateData :=
  {| h_Item := Some (ItemListApplications200ResponseInner
                       (Some (OtherApplication "ActiveDirectoryApplication"
                                               (Some "app9")))) |}.

(** A remote that knows the user u1 and the factor f1, and whose policy p1
    has three rules and three mappings over two pages. *)
Definition fullRemote : Remote :=
  {| Connect := None;
     doListFactors := fun _ => emptyListing;
     doGetUser := fun _ =>
       inr {| User_Id := Some "u1";
              User_Profile := Some {| Login := Some "ann" |} |};
     doGetFactor := fun _ id =>
       inr (Some {| Factor_Id := Some id; FactorType := Some "sms";
                    Provider := Some "OKTA"; Factor_Status := Some "ACTIVE";
                    Factor_Profile := Some "{}" |});
     doListApplicationUsers := fun _ _ _ => emptyListing;
     doGetApplicationUser := fun _ _ => inl "Not found";
     doListPolicies := fun _ => {| first := ok None; more := [] |};
     doListPolicyRules := fun _ =>
       {| first := ok ["r1"; "r2"]; more := [ok ["r3"]] |};
     doListPolicyMappings := fun _ =>
       {| first := ok ["m1"]; more := [ok ["m2"; "m3"]] |} |}.

(** A [structToMap] that fails on the rule "r2" only. *)
Definition structToMap_but_r2 (rule : string) : error + string :=
  if rule =? "r2" then inl "json: unsupported value" else inr rule.

Definition upperNotFound : error := "404 NOT FOUND".

(** A remote whose mappings fail with an upper-case not-found message. *)
Definition upperNotFoundRemote : Remote :=
  {| Connect := None;
     doListFactors := fun _ => emptyListing;
     doGetUser := fun _ => inl "Not found";
     doGetFactor := fun _ _ => inl "Not found";
     doListApplicationUsers := fun _ _ _ => emptyListing;
     doGetApplicationUser := fun _ _ => inl "Not found";
     doListPolicies := fun _ => {| first := ok None; more := [] |};
     doListPolicyRules := fun _ => emptyListing;
     doListPolicyMappings := fun _ =>
       {| first := {| payload := []; failure := Some "Resource NOT FOUND" |};
          more := [] |} |}.

Definition sampleRequest : HttpRequest :=
  {| Method := "GET"; URL_Path := "/api/v1/users"; URL_RawQuery := "limit=200";
     URL_String := "https://example.okta.com/api/v1/users?limit=200" |}.

Definition failingTransport : RoundTripper :=
  fun _ => (None, Some "dial tcp: connection refused").

Definition okTransport : RoundTripper :=
  fun _ => (Some {| StatusCode := 200%Z |}, None).

(** ** Basic facts *)

Section HydFacts.

Context {A B : Type}.
Implicit Types (m : Hyd A) (k : A -> Hyd B) (b : Budget).

Lemma bind_result m k b :
  result (bind m k b) = result (k (result (m b)) (remaining (m b))).
Proof.
  unfold bind, result, remaining.
  destruct (m b) as [[a ev1] b1]; cbn.
  destruct (k a b1) as [[r ev2] b2]; reflexivity.
Qed.

Lemma bind_events m k b :
  events (bind m k b) =
  events (m b) ++ events (k (result (m b)) (remaining (m b))).
Proof.
  unfold bind, result, remaining, events.
  destruct (m b) as [[a ev1] b1]; cbn.
  destruct (k a b1) as [[r ev2] b2]; reflexivity.
Qed.

Lemma bind_remaining m k b :
  remaining (bind m k b) = remaining (k (result (m b)) (remaining (m b))).
Proof.
  unfold bind, result, remaining.
  destruct (m b) as [[a ev1] b1]; cbn.
  destruct (k a b1) as [[r ev2] b2]; reflexivity.
Qed.

End HydFacts.

Lemma rows_app evs1 evs2 : rows (evs1 ++ evs2) = rows evs1 ++ rows evs2.
Proof.
  induction evs1 as [|e evs1 IH]; [reflexivity|].
  destruct e; cbn; rewrite IH; reflexivity.
Qed.

Lemma within_no_rows evs n : rows evs = [] -> within n evs = true.
Proof.
  induction evs as [|e evs IH]; [reflexivity|].
  destruct e; cbn; try exact IH. discriminate.
Qed.

Lemma within_length evs : forall n, within n evs = true -> length (rows evs) <= n.
Proof.
  induction evs as [|e evs IH]; intros n H; cbn in *; [lia|].
  destruct e; try (apply IH; exact H).
  destruct n as [|[|n']]; [discriminate| |].
  - destruct evs; [cbn; lia|discriminate].
  - apply IH in H. cbn. lia.
Qed.

Lemma within_app evs1 : forall n evs2,
  within n evs1 = true ->
  length (rows evs1) < n \/ n = 0 ->
  within (n - length (rows evs1)) evs2 = true ->
  within n (evs1 ++ evs2) = true.
Proof.
  induction evs1 as [|e evs1 IH]; intros n evs2 H1 Hlt H2.
  - cbn in *. rewrite Nat.sub_0_r in H2. exact H2.
  - destruct e; cbn in *; try (apply IH; assumption).
    destruct n as [|[|n']]; [discriminate| |].
    + destruct evs1; [|discriminate]. cbn in Hlt. lia.
    + apply IH; [exact H1|left; lia|exact H2].
Qed.

(** Nothing follows the row that uses up the limit. *)
Lemma within_last evs : forall n pre row post,
  within n evs = true ->
  evs = pre ++ EvStream row :: post ->
  length (rows (pre ++ [EvStream row])) = n ->
  post = [].
Proof.
  induction evs as [|e evs IH]; intros n pre row post H Heq Hlen.
  - destruct pre; discriminate.
  - destruct pre as [|e' pre]; cbn in Heq; injection Heq as He Hevs.
    + rewrite He in H. cbn in Hlen. rewrite <- Hlen in H. cbn in H.
      rewrite Hevs in H. destruct post; [reflexivity|discriminate].
    + rewrite He in H. clear He.
      destruct e'; cbn in H, Hlen; try (eapply IH; eauto; fail).
      destruct n as [|[|n']]; [discriminate| |].
      * rewrite Hevs in H. destruct pre; discriminate.
      * eapply IH; [exact H|exact Hevs|]. lia.
Qed.

Lemma within_respects n evs : within n evs = true -> respects_limit n evs.
Proof.
  intros H. split.
  - apply within_length; exact H.
  - intros pre row post Heq Hlen. eapply within_last; eauto.
Qed.

(** ** The row budget along the loops *)

Lemma streamGuarded_disciplined row : disciplined (streamGuarded row).
Proof.
  intros n. destruct row as [r|]; destruct n as [|[|n]]; cbn;
    repeat split; intros; try discriminate; try lia; f_equal; lia.
Qed.

(** Sequencing: a disciplined step, then -- unless it returned -- the rest. *)
Lemma seq_budget (m : Hyd bool) (rest : Hyd bool) n :
  disciplined m -> disciplined rest ->
  let run := bind m (fun returned => if returned then ret true else rest) (Some n) in
  remaining run = Some (n - length (rows (events run))) /\
  within n (events run) = true /\
  (result run = false -> length (rows (events run)) < n \/ n = 0).
Proof.
  intros Hm Hrest run. subst run.
  rewrite bind_result, bind_events, bind_remaining.
  destruct (Hm n) as (Hb & Hw & Hc).
  rewrite Hb. pose proof (within_length _ _ Hw) as Hle.
  destruct (result (m (Some n))) eqn:Hr.
  - cbn. rewrite app_nil_r. repeat split; [exact Hw|discriminate].
  - specialize (Hc eq_refl).
    destruct (Hrest (n - length (rows (events (m (Some n)))))) as (Hb' & Hw' & Hc').
    rewrite Hb', rows_app, length_app. repeat split.
    + f_equal. lia.
    + apply within_app; assumption.
    + intros Hf. specialize (Hc' Hf). lia.
Qed.

Lemma rangeStream_disciplined {A} (rowOf : A -> option Row) xs :
  disciplined (rangeStream rowOf xs).
Proof.
  induction xs as [|x xs IH]; intros n.
  - cbn. repeat split; [f_equal|]; lia.
  - cbn [rangeStream]. apply seq_budget; [apply streamGuarded_disciplined|exact IH].
Qed.

Lemma seq_budget_result {A} (m : Hyd bool) (rest : Hyd (Result A)) :
  disciplined m -> disciplined_result rest ->
  disciplined_result
    (bind m (fun returned => if returned then ret (Ret None) else rest)).
Proof.
  intros Hm Hrest n.
  rewrite bind_events, bind_remaining.
  destruct (Hm n) as (Hb & Hw & Hc).
  rewrite Hb. pose proof (within_length _ _ Hw) as Hle.
  destruct (result (m (Some n))) eqn:Hr.
  - cbn. rewrite app_nil_r. split; [reflexivity|exact Hw].
  - specialize (Hc eq_refl).
    destruct (Hrest (n - length (rows (events (m (Some n)))))) as (Hb' & Hw').
    rewrite Hb', rows_app, length_app. split.
    + f_equal. lia.
    + apply within_app; assumption.
Qed.

(** A request, a connection: no row is output, the budget is untouched. *)
Lemma tell_budget_result {A} (e : Event) (m : Hyd (Result A)) :
  rows [e] = [] -> disciplined_result m ->
  disciplined_result (bind (tell e) (fun _ => m)).
Proof.
  intros He Hm n.
  rewrite bind_events, bind_remaining. cbn [tell events remaining result fst snd].
  destruct (Hm n) as (Hb & Hw).
  change ([e] ++ events (m (Some n))) with (e :: events (m (Some n))).
  destruct e; try discriminate; cbn [rows within]; split; assumption.
Qed.

Lemma ret_budget_result {A} (r : Result A) : disciplined_result (ret r).
Proof. intros n. cbn. split; [f_equal; lia|reflexivity]. Qed.

Lemma paging_disciplined {P A} (body : P -> Hyd bool) pages :
  (forall p, disciplined (body p)) ->
  disciplined_result (paging (A := A) body pages).
Proof.
  intros Hbody. induction pages as [|page pages IH].
  - apply ret_budget_result.
  - cbn [paging]. apply tell_budget_result; [reflexivity|].
    destruct (failure page) as [err|]; [apply ret_budget_result|].
    apply seq_budget_result; [apply Hbody|exact IH].
Qed.

Create HintDb budget.
#[local] Hint Resolve ret_budget_result streamGuarded_disciplined
  rangeStream_disciplined : budget.

Ltac budget_step :=
  first [ apply ret_budget_result
        | apply tell_budget_result; [reflexivity|]
        | apply seq_budget_result; [auto with budget|]
        | apply paging_disciplined; intros; auto with budget ].

Lemma listOktaFactors_disciplined glv okta d h :
  disciplined_result (listOktaFactors glv okta d h).
Proof.
  unfold listOktaFactors. budget_step.
  destruct (Connect okta); [budget_step|].
  destruct (parentUser h) as [[userId userName]|]; [|budget_step].
  destruct (userIdQualRejects glv d userId); [budget_step|].
  destruct (userId =? ""); [budget_step|]. budget_step.
  destruct (failure (first (doListFactors okta userId))) as [err|].
  - destruct (Strings.Contains err "Not found"); budget_step.
  - repeat budget_step.
Qed.

Lemma listApplicationAssignedUsers_disciplined okta d h :
  disciplined_result (listApplicationAssignedUsers okta d h).
Proof.
  unfold listApplicationAssignedUsers.
  destruct (appIdOf h =? ""); [budget_step|]. budget_step.
  destruct (Connect okta); [budget_step|]. budget_step.
  destruct (failure (first (appUsersAnswer okta d (appIdOf h)))); repeat budget_step.
Qed.

Lemma listPolicies_disciplined okta d h :
  disciplined_result (listPolicies okta d h).
Proof.
  unfold listPolicies. budget_step.
  destruct (Connect okta); [budget_step|]. budget_step.
  destruct (failure (first (doListPolicies okta (policyTypeOf d)))); repeat budget_step.
Qed.

(** C1.  Started with a row limit [N], each of the list functions
    [listOktaFactors], [listApplicationAssignedUsers] and [listPolicies]
    outputs at most [N] rows, and nothing follows the [N]th row in its run:
    once [RowsRemaining] reads zero after an emitted row the function has
    returned, so no page is requested afterwards.  The budget left is [N]
    less the rows output. *)
Theorem list_respects_row_limit :
  forall glv okta d h (N : nat),
    Forall (fun run : Result Row * list Event * Budget =>
              respects_limit N (events run) /\
              remaining run = Some (N - length (rows (events run))))
           [ listOktaFactors glv okta d h (Some N);
             listApplicationAssignedUsers okta d h (Some N);
             listPolicies okta d h (Some N) ].
Proof.
  intros glv okta d h N.
  pose proof (listOktaFactors_disciplined glv okta d h N) as (Hb1 & Hw1).
  pose proof (listApplicationAssignedUsers_disciplined okta d h N) as (Hb2 & Hw2).
  pose proof (listPolicies_disciplined okta d h N) as (Hb3 & Hw3).
  repeat (apply Forall_cons; [split; [apply within_respects|]; assumption|]).
  apply Forall_nil.
Qed.

(** ** Which requests a run makes *)

Lemma streamGuarded_quiet row b :
  existsb isRequest (events (streamGuarded row b)) = false.
Proof. destruct row; destruct b as [[|n]|]; reflexivity. Qed.

Lemma rangeStream_quiet {A} (rowOf : A -> option Row) xs :
  forall b, existsb isRequest (events (rangeStream rowOf xs b)) = false.
Proof.
  induction xs as [|x xs IH]; intros b; [reflexivity|].
  cbn [rangeStream]. rewrite bind_events, existsb_app, streamGuarded_quiet.
  destruct (result (streamGuarded (rowOf x) b)); [reflexivity|apply IH].
Qed.

Lemma paging_quiet {P A} (body : P -> Hyd bool) pages :
  (forall p b, existsb isRequest (events (body p b)) = false) ->
  forall b, existsb isRequest (events (paging (A := A) body pages b)) = false.
Proof.
  intros Hbody. induction pages as [|page pages IH]; intros b; [reflexivity|].
  cbn [paging]. rewrite bind_events. cbn [tell events result remaining fst snd].
  cbn [app existsb isRequest orb].
  destruct (failure page) as [err|]; [reflexivity|].
  rewrite bind_events, existsb_app, Hbody.
  destruct (result (body (payload page) b)); [reflexivity|apply IH].
Qed.

Lemma quiet_no_execute evs req :
  existsb isRequest evs = false -> ~ In (EvExecute req) evs.
Proof.
  intros H Hin.
  assert (existsb isRequest evs = true) by (apply existsb_exists; eauto).
  congruence.
Qed.

(** The events of [listOktaFactors] once the connection is made, the parent
    read and the qualifier passed. *)
Lemma listOktaFactors_fetches glv okta d h b userId userName :
  Connect okta = None ->
  parentUser h = Some (userId, userName) ->
  userIdQualRejects glv d userId = false ->
  userId <> "" ->
  exists evs,
    events (listOktaFactors glv okta d h b)
    = EvConnect :: EvExecute (ListFactors userId) :: evs
    /\ existsb isRequest evs = false.
Proof.
  intros Hc Hp Hq Hne. unfold listOktaFactors.
  rewrite Hc, Hp, Hq.
  apply String.eqb_neq in Hne. rewrite Hne.
  rewrite !bind_events. cbn [tell events result remaining fst snd app].
  eexists; split; [reflexivity|].
  destruct (failure (first (doListFactors okta userId))) as [err|].
  - destruct (Strings.Contains err "Not found"); reflexivity.
  - rewrite bind_events, existsb_app, rangeStream_quiet.
    destruct (result _); [reflexivity|].
    apply paging_quiet. intros; apply rangeStream_quiet.
Qed.

(** Any request of [listOktaFactors] is the list of the parent's factors,
    made for a parent that the qualifier on [user_id] lets through. *)
Lemma listOktaFactors_requests glv okta d h b req :
  In (EvExecute req) (events (listOktaFactors glv okta d h b)) ->
  exists userId userName,
    parentUser h = Some (userId, userName) /\
    req = ListFactors userId /\
    userIdQualRejects glv d userId = false /\
    userId <> "" /\ Connect okta = None.
Proof.
  intros Hin.
  destruct (Connect okta) as [err|] eqn:Hc.
  { unfold listOktaFactors in Hin. rewrite Hc in Hin.
    cbn in Hin. destruct Hin as [H|[]]; discriminate. }
  destruct (parentUser h) as [[userId userName]|] eqn:Hp.
  2:{ unfold listOktaFactors in Hin. rewrite Hc, Hp in Hin.
      cbn in Hin. destruct Hin as [H|[]]; discriminate. }
  destruct (userIdQualRejects glv d userId) eqn:Hq.
  { unfold listOktaFactors in Hin. rewrite Hc, Hp, Hq in Hin.
    cbn in Hin. destruct Hin as [H|[]]; discriminate. }
  destruct (userId =? "") eqn:Hne.
  { unfold listOktaFactors in Hin. rewrite Hc, Hp, Hq, Hne in Hin.
    cbn in Hin. destruct Hin as [H|[]]; discriminate. }
  apply String.eqb_neq in Hne.
  destruct (listOktaFactors_fetches glv okta d h b userId userName Hc Hp Hq Hne)
    as (evs & Hev & Hquiet).
  rewrite Hev in Hin. cbn [In] in Hin.
  destruct Hin as [H|[H|H]]; [discriminate| |].
  - injection H as <-. exists userId, userName. auto.
  - exfalso. eapply quiet_no_execute; eauto.
Qed.

(** What [listOktaFactors] does when the qualifier rejects the parent. *)
Lemma listOktaFactors_pruned glv okta d h b userId userName :
  Connect okta = None ->
  parentUser h = Some (userId, userName) ->
  userIdQualRejects glv d userId = true ->
  listOktaFactors glv okta d h b = (Ret None, [EvConnect], b).
Proof.
  intros Hc Hp Hq. unfold listOktaFactors. rewrite Hc, Hp, Hq. reflexivity.
Qed.

Lemma parentUser_user h user userId :
  h_Item h = Some (ItemUser user) -> User_Id user = Some userId ->
  parentUser h = Some (userId, GetLogin (User_Profile user)).
Proof. intros Hi Hu. unfold parentUser. rewrite Hi, Hu. reflexivity. Qed.

(** The qualifier test for an exact-match value. *)
Lemma userIdQualRejects_exact glv d q userId :
  EqualsQual d "user_id" = Some (StringValue q) -> q <> "" ->
  userIdQualRejects glv d userId = negb (q =? userId).
Proof.
  intros Hq Hne. unfold userIdQualRejects, EqualsQualString.
  rewrite Hq. cbn [GetStringValue].
  apply String.eqb_neq in Hne. rewrite Hne. reflexivity.
Qed.

(** The qualifier test for a list of values. *)
Lemma userIdQualRejects_list glv d vs userId :
  EqualsQual d "user_id" = Some (ListValue vs) ->
  userIdQualRejects glv d userId =
  match glv (Some vs) with
  | [] => false
  | _ :: _ => negb (Strings.slicesContains (glv (Some vs)) userId)
  end.
Proof.
  intros Hq. unfold userIdQualRejects, EqualsQualString.
  rewrite Hq. cbn [GetStringValue GetListValue String.eqb negb].
  destruct (glv (Some vs)); reflexivity.
Qed.

Lemma slicesContains_In xs x : Strings.slicesContains xs x = true <-> In x xs.
Proof.
  unfold Strings.slicesContains. rewrite existsb_exists. split.
  - intros (y & Hy & Heq). apply String.eqb_eq in Heq. subst. exact Hy.
  - intros H. exists x. split; [exact H|apply String.eqb_refl].
Qed.

(** ** Fan-out pruning on [user_id] *)

(** C2, as the code has it.  With a non-empty exact-match qualifier [q] on
    [user_id], [listOktaFactors] first obtains the connection and returns
    its error if there is one; with the connection made, a parent whose key
    differs from [q] gets [(nil, nil)] and no request is executed for it;
    any request executed is the factor list of a parent whose key is [q]. *)
Theorem fanout_pruning_exact_match :
  forall glv okta d h b user userId q,
    h_Item h = Some (ItemUser user) ->
    User_Id user = Some userId ->
    EqualsQual d "user_id" = Some (StringValue q) ->
    q <> "" ->
    (forall err, Connect okta = Some err ->
                 listOktaFactors glv okta d h b = (Fail err, [EvConnect], b)) /\
    (Connect okta = None -> q <> userId ->
     listOktaFactors glv okta d h b = (Ret None, [EvConnect], b)) /\
    (forall req, In (EvExecute req) (events (listOktaFactors glv okta d h b)) ->
                 req = ListFactors userId /\ userId = q) /\
    (Connect okta = None -> q = userId ->
     In (EvExecute (ListFactors userId)) (events (listOktaFactors glv okta d h b))).
Proof.
  intros glv okta d h b user userId q Hi Hu Hq Hne.
  pose proof (parentUser_user h user userId Hi Hu) as Hp.
  pose proof (userIdQualRejects_exact glv d q userId Hq Hne) as Hrej.
  repeat split.
  - intros err Hc. unfold listOktaFactors. rewrite Hc. reflexivity.
  - intros Hc Hneq. eapply listOktaFactors_pruned; eauto.
    rewrite Hrej. apply String.eqb_neq in Hneq. rewrite Hneq. reflexivity.
  - apply listOktaFactors_requests in H as (u & n & Hp' & Hreq & _).
    rewrite Hp in Hp'. injection Hp' as <- _. exact Hreq.
  - apply listOktaFactors_requests in H as (u & n & Hp' & _ & Hrej' & _).
    rewrite Hp in Hp'. injection Hp' as <- _.
    rewrite Hrej in Hrej'. apply negb_false_iff, String.eqb_eq in Hrej'.
    symmetry; exact Hrej'.
  - intros Hc Heq.
    assert (Hrej' : userIdQualRejects glv d userId = false).
    { rewrite Hrej, Heq, String.eqb_refl. reflexivity. }
    assert (Hne' : userId <> "") by congruence.
    destruct (listOktaFactors_fetches glv okta d h b userId _ Hc Hp Hrej' Hne')
      as (evs & Hev & _).
    rewrite Hev. right; left; reflexivity.
Qed.

(** The parent "u1" under the qualifier [user_id = 'u2']: no request. *)
Lemma fanout_pruning_exact_match_witness :
  listOktaFactors getListValues_strings (factorRemote None oneFactorEach)
    (factorQuery [("user_id", StringValue "u2")]) (parentUserItem "u1" "ann") None
  = (Ret None, [EvConnect], None).
Proof.
  refine (proj1 (proj2 (fanout_pruning_exact_match
            getListValues_strings (factorRemote None oneFactorEach)
            (factorQuery [("user_id", StringValue "u2")])
            (parentUserItem "u1" "ann") None _ "u1" "u2"
            eq_refl eq_refl eq_refl _)) eq_refl _);
    intros H; discriminate H.
Defined.

(** The parents u1, u2, u3 under [user_id = 'u2']: the factor list is
    requested once, for u2. *)
Example fanout_three_parents :
  map (fun u => events (listOktaFactors getListValues_strings
                          (factorRemote None oneFactorEach)
                          (factorQuery [("user_id", StringValue "u2")])
                          (parentUserItem u "login") None))
      ["u1"; "u2"; "u3"]
  = [ [EvConnect];
      [EvConnect; EvExecute (ListFactors "u2");
       EvStream (FactorRow {| UserId := "u2"; UserName := "login";
                              Factor := getFactorDetails
                                (TypedFactor FactorSMS
                                   {| Factor_Id := Some "u2-sms"; FactorType := Some "sms";
                                      Provider := Some "OKTA";
                                      Factor_Status := Some "ACTIVE";
                                      Factor_Profile := None |} (Some "{}")) |})];
      [EvConnect] ].
Proof. reflexivity. Qed.

(** C2 as stated fails: the connection is attempted before the qualifier is
    looked at, and when it fails the pruned parent gets the error, not
    [(nil, nil)]. *)
Lemma fanout_pruning_connects_first :
  let d := factorQuery [("user_id", StringValue "u2")] in
  let h := parentUserItem "u1" "ann" in
  let run := listOktaFactors getListValues_strings
               (factorRemote (Some "dial tcp: connection refused") oneFactorEach)
               d h None in
  EqualsQual d "user_id" = Some (StringValue "u2") /\
  parentUser h = Some ("u1", "ann") /\
  In EvConnect (events run) /\
  result run = Fail "dial tcp: connection refused" /\
  ~ (result run = Ret None /\ ~ In EvConnect (events run)).
Proof.
  cbv zeta. repeat split; try reflexivity.
  - left; reflexivity.
  - intros [H _]. discriminate H.
Qed.

(** C3, as the code has it.  With a list qualifier on [user_id], the only
    request [listOktaFactors] makes is the factor list of the parent: the
    request carries the parent's key and nothing of the qualifier.  When the
    values extracted from the qualifier are not empty, a parent whose key is
    not among them gets [(nil, nil)] and no request, and a parent whose
    non-empty key is among them has its factors requested.  When no value is
    extracted, the qualifier prunes nothing. *)
Theorem list_qualifier_checked_client_side :
  forall glv okta d h b user userId vs,
    h_Item h = Some (ItemUser user) ->
    User_Id user = Some userId ->
    EqualsQual d "user_id" = Some (ListValue vs) ->
    (forall req, In (EvExecute req) (events (listOktaFactors glv okta d h b)) ->
                 req = ListFactors userId) /\
    (glv (Some vs) <> [] -> ~ In userId (glv (Some vs)) ->
     (forall req, ~ In (EvExecute req) (events (listOktaFactors glv okta d h b))) /\
     (Connect okta = None ->
      listOktaFactors glv okta d h b = (Ret None, [EvConnect], b))) /\
    (Connect okta = None -> userId <> "" ->
     In userId (glv (Some vs)) \/ glv (Some vs) = [] ->
     In (EvExecute (ListFactors userId)) (events (listOktaFactors glv okta d h b))).
Proof.
  intros glv okta d h b user userId vs Hi Hu Hq.
  pose proof (parentUser_user h user userId Hi Hu) as Hp.
  pose proof (userIdQualRejects_list glv d vs userId Hq) as Hrej.
  split; [|split].
  - intros req H.
    apply listOktaFactors_requests in H as (u & n & Hp' & Hreq & _).
    rewrite Hp in Hp'. injection Hp' as <- _. exact Hreq.
  - intros Hne Hnin.
    assert (Hrej' : userIdQualRejects glv d userId = true).
    { rewrite Hrej. destruct (glv (Some vs)) as [|v rest] eqn:E; [congruence|].
      apply negb_true_iff. apply not_true_is_false.
      intros Hc. apply slicesContains_In in Hc. contradiction. }
    split.
    + intros req H.
      apply listOktaFactors_requests in H as (u & n & Hp' & _ & Hrej'' & _).
      rewrite Hp in Hp'. injection Hp' as <- _. congruence.
    + intros Hc. eapply listOktaFactors_pruned; eauto.
  - intros Hc Hne Hmem.
    assert (Hrej' : userIdQualRejects glv d userId = false).
    { rewrite Hrej. destruct Hmem as [Hin|Hnil].
      - destruct (glv (Some vs)) as [|v rest] eqn:E; [reflexivity|].
        apply negb_false_iff. apply slicesContains_In. exact Hin.
      - rewrite Hnil. reflexivity. }
    destruct (listOktaFactors_fetches glv okta d h b userId _ Hc Hp Hrej' Hne)
      as (evs & Hev & _).
    rewrite Hev. right; left; reflexivity.
Qed.

(** The parent "u1" under [user_id in ('u2', 'u3')]: no request. *)
Lemma list_qualifier_checked_client_side_witness :
  listOktaFactors getListValues_strings (factorRemote None oneFactorEach)
    (factorQuery [("user_id", ListValue [StringValue "u2"; StringValue "u3"])])
    (parentUserItem "u1" "ann") None
  = (Ret None, [EvConnect], None).
Proof.
  refine (proj2 (proj1 (proj2 (list_qualifier_checked_client_side
            getListValues_strings (factorRemote None oneFactorEach)
            (factorQuery [("user_id", ListValue [StringValue "u2"; StringValue "u3"])])
            (parentUserItem "u1" "ann") None _ "u1"
            [StringValue "u2"; StringValue "u3"]
            eq_refl eq_refl eq_refl)) _ _) eq_refl).
  - intros H; discriminate H.
  - cbn. intros [H|[H|[]]]; discriminate H.
Defined.

(** C3 as stated fails for a list qualifier without values: the parent "u1"
    is not a member, and its factors are requested all the same. *)
Lemma list_qualifier_without_values_prunes_nothing :
  let d := factorQuery [("user_id", ListValue [])] in
  let h := parentUserItem "u1" "ann" in
  let run := listOktaFactors getListValues_strings
               (factorRemote None oneFactorEach) d h None in
  EqualsQual d "user_id" = Some (ListValue []) /\
  ~ In (StringValue "u1") [] /\
  In (EvExecute (ListFactors "u1")) (events run).
Proof.
  cbv zeta. repeat split.
  - intros [].
  - right; left; reflexivity.
Qed.

(** ** Runs without a row limit *)

Lemma rows_streams l : rows (map EvStream l) = l.
Proof. induction l as [|r l IH]; cbn; [|rewrite IH]; reflexivity. Qed.

Lemma rows_pagesTrace {P} (rowsOfPage : P -> list Row) pages :
  rows (pagesTrace rowsOfPage pages) = flat_map rowsOfPage pages.
Proof.
  induction pages as [|p pages IH]; [reflexivity|].
  cbn [pagesTrace rows flat_map]. rewrite rows_app, rows_streams, IH. reflexivity.
Qed.

Lemma rowsOf_total {A} (rowOf : A -> option Row) (f : A -> Row) xs :
  (forall x, rowOf x = Some (f x)) -> rowsOf rowOf xs = map f xs.
Proof.
  intros H. induction xs as [|x xs IH]; [reflexivity|].
  unfold rowsOf in *. cbn. rewrite H, IH. reflexivity.
Qed.

Lemma streamGuarded_unbounded row :
  streamGuarded row None = (false, map EvStream (guardedRows row), None).
Proof. destruct row; reflexivity. Qed.

Lemma rangeStream_unbounded {A} (rowOf : A -> option Row) xs :
  rangeStream rowOf xs None = (false, map EvStream (rowsOf rowOf xs), None).
Proof.
  induction xs as [|x xs IH]; [reflexivity|].
  cbn [rangeStream]. unfold bind. rewrite streamGuarded_unbounded, IH.
  unfold rowsOf. cbn [flat_map]. rewrite map_app.
  destruct (rowOf x); reflexivity.
Qed.

(** All continuation pages arrive: each is requested after the rows of the
    one before it, and the function ends with [(nil, nil)]. *)
Lemma paging_unbounded {P A} (body : P -> Hyd bool) rowsOfPage pages :
  (forall p, body p None = (false, map EvStream (rowsOfPage p), None)) ->
  Forall succeeded pages ->
  paging (A := A) body pages None
  = (Ret None, pagesTrace rowsOfPage (map payload pages), None).
Proof.
  intros Hbody Hok. induction Hok as [|page pages Hpage _ IH]; [reflexivity|].
  cbn [paging map pagesTrace]. unfold succeeded in Hpage. rewrite Hpage.
  unfold bind at 1. cbn [tell]. unfold bind. rewrite Hbody, IH. reflexivity.
Qed.

(** A continuation page fails: the function has output the rows of the
    pages before it, outputs nothing of the failing page and returns the
    error. *)
Lemma paging_unbounded_failure {P A} (body : P -> Hyd bool) rowsOfPage
      good bad rest err :
  (forall p, body p None = (false, map EvStream (rowsOfPage p), None)) ->
  Forall succeeded good ->
  failure bad = Some err ->
  paging (A := A) body (good ++ bad :: rest) None
  = (Fail err, pagesTrace rowsOfPage (map payload good) ++ [EvNext], None).
Proof.
  intros Hbody Hok Hbad. induction Hok as [|page pages Hpage _ IH].
  - cbn [app paging map pagesTrace]. rewrite Hbad. reflexivity.
  - cbn [app paging map pagesTrace]. unfold succeeded in Hpage. rewrite Hpage.
    unfold bind at 1. cbn [tell]. unfold bind. rewrite Hbody, IH.
    cbn [app]. rewrite <- app_assoc. reflexivity.
Qed.

Lemma listOktaFactors_reached glv okta d h userId userName b :
  reachesFactors glv okta d h userId userName ->
  listOktaFactors glv okta d h b =
  (tell EvConnect ;;
   tell (EvExecute (ListFactors userId)) ;;
   match failure (first (doListFactors okta userId)) with
   | Some err =>
       if Strings.Contains err "Not found" then ret (Ret None) else ret (Fail err)
   | None =>
       returned <- rangeStream (factorRow userId userName)
                     (payload (first (doListFactors okta userId))) ;;
       if returned then ret (Ret None)
       else paging (rangeStream (factorRow userId userName))
                   (more (doListFactors okta userId))
   end) b.
Proof.
  intros (Hc & Hp & Hq & Hne). unfold listOktaFactors.
  apply String.eqb_neq in Hne. rewrite Hc, Hp, Hq, Hne. reflexivity.
Qed.

Lemma listApplicationAssignedUsers_reached okta d h b :
  reachesAppUsers okta h ->
  listApplicationAssignedUsers okta d h b =
  (tell EvConnect ;;
   tell (EvExecute (appUsersRequest d (appIdOf h))) ;;
   match failure (first (appUsersAnswer okta d (appIdOf h))) with
   | Some err => ret (Fail err)
   | None =>
       returned <- rangeStream (appUserRow (appIdOf h))
                     (payload (first (appUsersAnswer okta d (appIdOf h)))) ;;
       if returned then ret (Ret None)
       else paging (rangeStream (appUserRow (appIdOf h)))
                   (more (appUsersAnswer okta d (appIdOf h)))
   end) b.
Proof.
  intros (Hc & Hne). unfold listApplicationAssignedUsers.
  apply String.eqb_neq in Hne. rewrite Hne, Hc. reflexivity.
Qed.

Lemma listOktaFactors_unbounded glv okta d h userId userName :
  reachesFactors glv okta d h userId userName ->
  succeeded (first (doListFactors okta userId)) ->
  Forall succeeded (more (doListFactors okta userId)) ->
  listOktaFactors glv okta d h None
  = (Ret None,
     EvConnect :: EvExecute (ListFactors userId)
       :: map EvStream (rowsOf (factorRow userId userName)
                               (payload (first (doListFactors okta userId))))
       ++ pagesTrace (rowsOf (factorRow userId userName))
                     (map payload (more (doListFactors okta userId))),
     None).
Proof.
  intros Hreach Hfirst Hmore.
  rewrite (listOktaFactors_reached _ _ _ _ _ _ _ Hreach).
  unfold succeeded in Hfirst. rewrite Hfirst.
  unfold bind at 1. cbn [tell]. unfold bind at 1. cbn [tell].
  unfold bind. rewrite rangeStream_unbounded.
  rewrite (paging_unbounded _ (rowsOf (factorRow userId userName)));
    [reflexivity|intros; apply rangeStream_unbounded|exact Hmore].
Qed.

Lemma listApplicationAssignedUsers_unbounded okta d h :
  reachesAppUsers okta h ->
  succeeded (first (appUsersAnswer okta d (appIdOf h))) ->
  Forall succeeded (more (appUsersAnswer okta d (appIdOf h))) ->
  listApplicationAssignedUsers okta d h None
  = (Ret None,
     EvConnect :: EvExecute (appUsersRequest d (appIdOf h))
       :: map EvStream (rowsOf (appUserRow (appIdOf h))
                               (payload (first (appUsersAnswer okta d (appIdOf h)))))
       ++ pagesTrace (rowsOf (appUserRow (appIdOf h)))
                     (map payload (more (appUsersAnswer okta d (appIdOf h)))),
     None).
Proof.
  intros Hreach Hfirst Hmore.
  rewrite (listApplicationAssignedUsers_reached _ _ _ _ Hreach).
  unfold succeeded in Hfirst. rewrite Hfirst.
  unfold bind at 1. cbn [tell]. unfold bind at 1. cbn [tell].
  unfold bind. rewrite rangeStream_unbounded.
  rewrite (paging_unbounded _ (rowsOf (appUserRow (appIdOf h))));
    [reflexivity|intros; apply rangeStream_unbounded|exact Hmore].
Qed.

(** ** Pagination keeps count and order *)

Lemma rowsOf_factors userId userName instances :
  rowsOf (factorRow userId userName) (map Some instances)
  = map (factorInfoRow userId userName) instances.
Proof.
  induction instances as [|i l IH]; [reflexivity|].
  unfold rowsOf in *. cbn. rewrite IH. reflexivity.
Qed.

Lemma rowsOf_appUsers appId users :
  rowsOf (appUserRow appId) users = map (appUserInfoRow appId) users.
Proof. apply rowsOf_total. reflexivity. Qed.

(** C9.  Without a row limit, three pages of ten items each (every factor
    item carrying an actual instance) give thirty rows, for
    [listOktaFactors] and for [listApplicationAssignedUsers] alike: the
    first page is requested, its ten rows are output in the order of its
    items, then the second page is requested, and so on; the rows are the
    items of the three pages in order. *)
Theorem pagination_three_pages_of_ten :
  forall glv okta d hf ha userId userName
         (f1 f2 f3 : list FactorInstance) (u1 u2 u3 : list AppUser),
    reachesFactors glv okta d hf userId userName ->
    doListFactors okta userId
      = {| first := ok (map Some f1); more := [ok (map Some f2); ok (map Some f3)] |} ->
    reachesAppUsers okta ha ->
    appUsersAnswer okta d (appIdOf ha)
      = {| first := ok u1; more := [ok u2; ok u3] |} ->
    length f1 = 10 -> length f2 = 10 -> length f3 = 10 ->
    length u1 = 10 -> length u2 = 10 -> length u3 = 10 ->
    let runF := listOktaFactors glv okta d hf None in
    let runA := listApplicationAssignedUsers okta d ha None in
    (result runF = Ret None /\
     events runF
     = EvConnect :: EvExecute (ListFactors userId)
         :: map EvStream (map (factorInfoRow userId userName) f1)
         ++ EvNext :: map EvStream (map (factorInfoRow userId userName) f2)
         ++ EvNext :: map EvStream (map (factorInfoRow userId userName) f3) /\
     rows (events runF) = map (factorInfoRow userId userName) (f1 ++ f2 ++ f3) /\
     length (rows (events runF)) = 30) /\
    (result runA = Ret None /\
     events runA
     = EvConnect :: EvExecute (appUsersRequest d (appIdOf ha))
         :: map EvStream (map (appUserInfoRow (appIdOf ha)) u1)
         ++ EvNext :: map EvStream (map (appUserInfoRow (appIdOf ha)) u2)
         ++ EvNext :: map EvStream (map (appUserInfoRow (appIdOf ha)) u3) /\
     rows (events runA) = map (appUserInfoRow (appIdOf ha)) (u1 ++ u2 ++ u3) /\
     length (rows (events runA)) = 30).
Proof.
  intros glv okta d hf ha userId userName f1 f2 f3 u1 u2 u3
         HreachF HF HreachA HA L1 L2 L3 M1 M2 M3 runF runA.
  assert (EF : runF = (Ret None,
     EvConnect :: EvExecute (ListFactors userId)
         :: map EvStream (map (factorInfoRow userId userName) f1)
         ++ EvNext :: map EvStream (map (factorInfoRow userId userName) f2)
         ++ EvNext :: map EvStream (map (factorInfoRow userId userName) f3), None)).
  { subst runF. rewrite (listOktaFactors_unbounded _ _ _ _ _ _ HreachF);
      rewrite HF; cbn [first more payload ok map pagesTrace];
      [ rewrite !rowsOf_factors, app_nil_r; reflexivity
      | reflexivity
      | repeat constructor ]. }
  assert (EA : runA = (Ret None,
     EvConnect :: EvExecute (appUsersRequest d (appIdOf ha))
         :: map EvStream (map (appUserInfoRow (appIdOf ha)) u1)
         ++ EvNext :: map EvStream (map (appUserInfoRow (appIdOf ha)) u2)
         ++ EvNext :: map EvStream (map (appUserInfoRow (appIdOf ha)) u3), None)).
  { subst runA. rewrite (listApplicationAssignedUsers_unbounded _ _ _ HreachA);
      rewrite HA; cbn [first more payload ok map pagesTrace];
      [ rewrite !rowsOf_appUsers, app_nil_r; reflexivity
      | reflexivity
      | repeat constructor ]. }
  rewrite EF, EA. cbn [result events fst snd rows].
  rewrite !rows_app. cbn [rows]. rewrite !rows_app. cbn [rows].
  rewrite !rows_streams, !map_app, !length_app, !length_map.
  rewrite L1, L2, L3, M1, M2, M3. repeat split; reflexivity.
Qed.

Lemma pagination_three_pages_of_ten_witness :
  length (rows (events (listOktaFactors getListValues_strings threePagesRemote
                          (factorQuery []) (parentUserItem "u1" "ann") None))) = 30 /\
  length (rows (events (listApplicationAssignedUsers threePagesRemote
                          (factorQuery []) (parentApplication SamlApplication "app1")
                          None))) = 30.
Proof.
  pose proof (pagination_three_pages_of_ten
                getListValues_strings threePagesRemote (factorQuery [])
                (parentUserItem "u1" "ann") (parentApplication SamlApplication "app1")
                "u1" "ann"
                (ten (fun n => smsInstance ("a" ++ n)))
                (ten (fun n => smsInstance ("b" ++ n)))
                (ten (fun n => smsInstance ("c" ++ n)))
                (ten (fun n => appUserNamed ("a" ++ n)))
                (ten (fun n => appUserNamed ("b" ++ n)))
                (ten (fun n => appUserNamed ("c" ++ n)))) as H.
  cbv zeta in H.
  refine ((fun H' => conj (proj2 (proj2 (proj2 (proj1 H'))))
                          (proj2 (proj2 (proj2 (proj2 H')))))
            (H _ eq_refl _ eq_refl eq_refl eq_refl eq_refl eq_refl eq_refl eq_refl)).
  - repeat split; try reflexivity. intros E; discriminate E.
  - repeat split; try reflexivity. intros E; discriminate E.
Defined.

(** ** The user list of an application: request, page size, search term *)

Lemma listApplicationAssignedUsers_fetches okta d h b :
  reachesAppUsers okta h ->
  exists evs,
    events (listApplicationAssignedUsers okta d h b)
    = EvConnect :: EvExecute (appUsersRequest d (appIdOf h)) :: evs
    /\ existsb isRequest evs = false.
Proof.
  intros Hreach. rewrite (listApplicationAssignedUsers_reached _ _ _ _ Hreach).
  rewrite !bind_events. cbn [tell events result remaining fst snd app].
  eexists; split; [reflexivity|].
  destruct (failure (first (appUsersAnswer okta d (appIdOf h)))) as [err|];
    [reflexivity|].
  rewrite bind_events, existsb_app, rangeStream_quiet.
  destruct (result _); [reflexivity|].
  apply paging_quiet. intros; apply rangeStream_quiet.
Qed.

(** Any request of [listApplicationAssignedUsers] is the one for the users
    of the parent application. *)
Lemma listApplicationAssignedUsers_requests okta d h b req :
  In (EvExecute req) (events (listApplicationAssignedUsers okta d h b)) ->
  req = appUsersRequest d (appIdOf h) /\ reachesAppUsers okta h.
Proof.
  intros Hin.
  destruct (appIdOf h =? "") eqn:Hne.
  { unfold listApplicationAssignedUsers in Hin. rewrite Hne in Hin.
    destruct Hin. }
  destruct (Connect okta) as [err|] eqn:Hc.
  { unfold listApplicationAssignedUsers in Hin. rewrite Hne, Hc in Hin.
    cbn in Hin. destruct Hin as [H|[]]; discriminate. }
  apply String.eqb_neq in Hne.
  assert (Hreach : reachesAppUsers okta h) by (split; assumption).
  destruct (listApplicationAssignedUsers_fetches okta d h b Hreach)
    as (evs & Hev & Hquiet).
  rewrite Hev in Hin. cbn [In] in Hin.
  destruct Hin as [H|[H|H]]; [discriminate| |].
  - injection H as <-. split; [reflexivity|exact Hreach].
  - exfalso. eapply quiet_no_execute; eauto.
Qed.

Lemma int32_small x : (-2147483648 <= x < 2147483648)%Z -> int32 x = x.
Proof.
  intros H. unfold int32.
  rewrite Z.mod_small by lia. lia.
Qed.

Lemma pageLimit_clamps limit :
  (forall L, limit = Some L -> (-2147483648 <= L)%Z) ->
  pageLimit limit = match limit with
                    | Some L => Z.min 500 L
                    | None => 500%Z
                    end.
Proof.
  intros Hpos. unfold pageLimit. destruct limit as [L|].
  - specialize (Hpos L eq_refl).
    destruct (Z.ltb_spec L 500); rewrite int32_small by lia; lia.
  - reflexivity.
Qed.

(** C10.  [listApplicationAssignedUsers], once it gets to its request,
    sends it -- under any row budget -- with the page size [min(500, L)]
    when the query has the row limit [L] and 500 when it has none; no other
    request is made, so any user list requested carries that size, which
    never exceeds 500.  The limit is a count; all that is used of it is that
    it is not below the least [int32]. *)
Theorem page_size_clamped :
  forall okta d h b,
    (forall L, Limit d = Some L -> (-2147483648 <= L)%Z) ->
    let size := match Limit d with
                | Some L => Z.min 500 L
                | None => 500%Z
                end in
    (size <= 500)%Z /\
    (reachesAppUsers okta h ->
     exists evs,
       events (listApplicationAssignedUsers okta d h b)
       = EvConnect
           :: EvExecute (ListApplicationUsers (appIdOf h) size
                           (if searchTerm d =? "" then None else Some (searchTerm d)))
           :: evs /\
       existsb isRequest evs = false) /\
    (forall appId limit q,
        In (EvExecute (ListApplicationUsers appId limit q))
           (events (listApplicationAssignedUsers okta d h b)) ->
        limit = size).
Proof.
  intros okta d h b Hpos size.
  assert (Hsize : pageLimit (Limit d) = size) by (apply pageLimit_clamps; exact Hpos).
  split; [|split].
  - subst size. destruct (Limit d); lia.
  - intros Hreach.
    destruct (listApplicationAssignedUsers_fetches okta d h b Hreach)
      as (evs & Hev & Hquiet).
    exists evs. split; [|exact Hquiet].
    rewrite Hev. unfold appUsersRequest. rewrite Hsize. reflexivity.
  - intros appId limit q Hin.
    apply listApplicationAssignedUsers_requests in Hin as [Hreq _].
    unfold appUsersRequest in Hreq. injection Hreq as _ Hl _.
    rewrite Hl. exact Hsize.
Qed.

(** With [limit 20] the request for the users of app1 asks for pages of
    20; with [limit 100000], and without a limit, for pages of 500. *)
Lemma page_size_clamped_witness :
  (exists evs,
      events (listApplicationAssignedUsers threePagesRemote
                (appUserQuery [] (Some 20%Z))
                (parentApplication SamlApplication "app1") (Some 20))
      = EvConnect :: EvExecute (ListApplicationUsers "app1" 20 None) :: evs /\
      existsb isRequest evs = false) /\
  (exists evs,
      events (listApplicationAssignedUsers threePagesRemote
                (appUserQuery [] (Some 100000%Z))
                (parentApplication SamlApplication "app1") (Some 40))
      = EvConnect :: EvExecute (ListApplicationUsers "app1" 500 None) :: evs /\
      existsb isRequest evs = false) /\
  (exists evs,
      events (listApplicationAssignedUsers threePagesRemote
                (appUserQuery [] None)
                (parentApplication SamlApplication "app1") None)
      = EvConnect :: EvExecute (ListApplicationUsers "app1" 500 None) :: evs /\
      existsb isRequest evs = false).
Proof.
  split; [|split].
  - refine (proj1 (proj2 (page_size_clamped threePagesRemote
              (appUserQuery [] (Some 20%Z))
              (parentApplication SamlApplication "app1") (Some 20) _)) _).
    + intros L E. injection E as <-. lia.
    + split; [reflexivity|]. intros E; discriminate E.
  - refine (proj1 (proj2 (page_size_clamped threePagesRemote
              (appUserQuery [] (Some 100000%Z))
              (parentApplication SamlApplication "app1") (Some 40) _)) _).
    + intros L E. injection E as <-. lia.
    + split; [reflexivity|]. intros E; discriminate E.
  - refine (proj1 (proj2 (page_size_clamped threePagesRemote
              (appUserQuery [] None)
              (parentApplication SamlApplication "app1") None _)) _).
    + intros L E. discriminate E.
    + split; [reflexivity|]. intros E; discriminate E.
Defined.

(** The conversion to [int32] is harmless for a count; a negative 64-bit
    value may come out above 500. *)
Remark pageLimit_examples :
  pageLimit None = 500%Z /\ pageLimit (Some 20%Z) = 20%Z /\
  pageLimit (Some 500%Z) = 500%Z /\ pageLimit (Some 100000%Z) = 500%Z /\
  pageLimit (Some 0%Z) = 0%Z /\ pageLimit (Some (-4294966296)%Z) = 1000%Z.
Proof. repeat split; reflexivity. Qed.

(** ** Qualifiers sent to the server *)

(** C4, as the code has it.  [listApplicationAssignedUsers] sends the first
    non-empty of the qualifiers [user_name], [first_name], [email] as the
    search term [q], and outputs every user that the server returns: without
    a row limit the rows are the users of all pages, in order, none left out
    -- the function does not compare a user with the qualifier. *)
Theorem pushed_down_qualifier_not_rechecked :
  forall okta d h,
    reachesAppUsers okta h ->
    succeeded (first (appUsersAnswer okta d (appIdOf h))) ->
    Forall succeeded (more (appUsersAnswer okta d (appIdOf h))) ->
    let run := listApplicationAssignedUsers okta d h None in
    In (EvExecute (ListApplicationUsers (appIdOf h) (pageLimit (Limit d))
                     (if searchTerm d =? "" then None else Some (searchTerm d))))
       (events run) /\
    rows (events run)
    = map (appUserInfoRow (appIdOf h))
          (payload (first (appUsersAnswer okta d (appIdOf h)))
           ++ flat_map payload (more (appUsersAnswer okta d (appIdOf h)))) /\
    (EqualsQualString d "user_name" <> "" ->
     searchTerm d = EqualsQualString d "user_name") /\
    (EqualsQualString d "user_name" = "" -> EqualsQualString d "first_name" <> "" ->
     searchTerm d = EqualsQualString d "first_name") /\
    (EqualsQualString d "user_name" = "" -> EqualsQualString d "first_name" = "" ->
     searchTerm d = EqualsQualString d "email").
Proof.
  intros okta d h Hreach Hfirst Hmore run. subst run.
  rewrite (listApplicationAssignedUsers_unbounded _ _ _ Hreach Hfirst Hmore).
  cbn [events fst snd]. split; [right; left; reflexivity|]. split.
  - cbn [rows]. rewrite rows_app, rows_streams, rows_pagesTrace, rowsOf_appUsers.
    rewrite map_app. f_equal. clear Hmore.
    induction (more (appUsersAnswer okta d (appIdOf h))) as [|p l IH];
      [reflexivity|].
    cbn [map flat_map]. rewrite rowsOf_appUsers, map_app, IH. reflexivity.
  - unfold searchTerm. repeat split.
    + intros H. apply String.eqb_neq in H. rewrite H. reflexivity.
    + intros H1 H2. apply String.eqb_neq in H2. rewrite H1, H2. reflexivity.
    + intros H1 H2. rewrite H1, H2. cbn.
      destruct (EqualsQualString d "email" =? "") eqn:E; [|reflexivity].
      apply String.eqb_eq in E. symmetry; exact E.
Qed.

Lemma pushed_down_qualifier_not_rechecked_witness :
  rows (events (listApplicationAssignedUsers prefixSearchRemote
                  (appUserQuery [("user_name", StringValue "alice")] None)
                  (parentApplication SamlApplication "app1") None))
  = [ appUserInfoRow "app1" (appUserNamed "alice");
      appUserInfoRow "app1" (appUserNamed "alice2") ].
Proof.
  refine (proj1 (proj2 (pushed_down_qualifier_not_rechecked prefixSearchRemote
            (appUserQuery [("user_name", StringValue "alice")] None)
            (parentApplication SamlApplication "app1") _ eq_refl _))).
  - split; [reflexivity|]. intros E; discriminate E.
  - constructor.
Defined.

(** C4 as stated fails: under [user_name = 'alice'] the term "alice" is
    sent as [q], the server answers with alice and alice2, and the row of
    alice2 is output although its user name is not the qualifier's. *)
Lemma pushed_down_qualifier_row_not_satisfying :
  let d := appUserQuery [("user_name", StringValue "alice")] None in
  let run := listApplicationAssignedUsers prefixSearchRemote d
               (parentApplication SamlApplication "app1") None in
  In (EvExecute (ListApplicationUsers "app1" 500 (Some "alice"))) (events run) /\
  In (appUserInfoRow "app1" (appUserNamed "alice2")) (rows (events run)) /\
  Credentials_UserName (appUserNamed "alice2") <> EqualsQualString d "user_name".
Proof.
  cbv zeta. repeat split.
  - right; left; reflexivity.
  - right; left; reflexivity.
  - intros E; discriminate E.
Qed.

(** ** Errors while listing *)

(** Whatever the row budget: when the page loop returns an error, the last
    thing it did was to ask for a page. *)
Lemma paging_failure_follows_request {P A} (body : P -> Hyd bool) pages :
  forall b err,
    result (paging (A := A) body pages b) = Fail err ->
    exists pre, events (paging (A := A) body pages b) = pre ++ [EvNext].
Proof.
  induction pages as [|page pages IH]; intros b err Hres; [discriminate Hres|].
  cbn [paging] in *. rewrite bind_result in Hres. rewrite bind_events.
  cbn [tell events result remaining fst snd] in *.
  destruct (failure page) as [e|].
  - exists []. reflexivity.
  - rewrite bind_result in Hres. rewrite bind_events.
    destruct (result (body (payload page) b)); [discriminate Hres|].
    destruct (IH _ _ Hres) as (pre & Hpre). rewrite Hpre.
    exists (EvNext :: events (body (payload page) b) ++ pre).
    cbn [app]. rewrite <- app_assoc. reflexivity.
Qed.

Lemma listOktaFactors_failure_follows_request glv okta d h b err :
  result (listOktaFactors glv okta d h b) = Fail err ->
  endsOnRequest (events (listOktaFactors glv okta d h b)).
Proof.
  unfold listOktaFactors. rewrite bind_result, bind_events.
  cbn [tell events result remaining fst snd].
  destruct (Connect okta).
  { intros _. exists [], EvConnect. split; [reflexivity|left; reflexivity]. }
  destruct (parentUser h) as [[userId userName]|]; [|discriminate].
  destruct (userIdQualRejects glv d userId); [discriminate|].
  destruct (userId =? ""); [discriminate|].
  rewrite bind_result, bind_events. cbn [tell events result remaining fst snd].
  destruct (failure (first (doListFactors okta userId))) as [e|].
  - intros _. exists [EvConnect], (EvExecute (ListFactors userId)).
    destruct (Strings.Contains e "Not found");
      (split; [reflexivity|left; reflexivity]).
  - rewrite bind_result, bind_events.
    destruct (result (rangeStream _ _ b)); [discriminate|].
    intros Hres. apply paging_failure_follows_request in Hres as (pre & Hpre).
    rewrite Hpre. eexists (_ :: _ :: _ ++ pre), EvNext.
    split; [|right; reflexivity].
    cbn [app]. rewrite <- app_assoc. reflexivity.
Qed.

Lemma listApplicationAssignedUsers_failure_follows_request okta d h b err :
  result (listApplicationAssignedUsers okta d h b) = Fail err ->
  endsOnRequest (events (listApplicationAssignedUsers okta d h b)).
Proof.
  unfold listApplicationAssignedUsers.
  destruct (appIdOf h =? ""); [discriminate|].
  rewrite bind_result, bind_events.
  cbn [tell events result remaining fst snd].
  destruct (Connect okta).
  { intros _. exists [], EvConnect. split; [reflexivity|left; reflexivity]. }
  rewrite bind_result, bind_events. cbn [tell events result remaining fst snd].
  destruct (failure (first (appUsersAnswer okta d (appIdOf h)))) as [e|].
  - intros _. exists [EvConnect], (EvExecute (appUsersRequest d (appIdOf h))).
    split; [reflexivity|left; reflexivity].
  - rewrite bind_result, bind_events.
    destruct (result (rangeStream _ _ b)); [discriminate|].
    intros Hres. apply paging_failure_follows_request in Hres as (pre & Hpre).
    rewrite Hpre. eexists (_ :: _ :: _ ++ pre), EvNext.
    split; [|right; reflexivity].
    cbn [app]. rewrite <- app_assoc. reflexivity.
Qed.

(** C6, as the code has it.  For [listOktaFactors] and
    [listApplicationAssignedUsers], once the request is reached:
    - an error on the first page outputs nothing of that page, whatever was
      decoded; [listOktaFactors] ends with [(nil, nil)] when the message
      contains "Not found" and returns the error otherwise,
      [listApplicationAssignedUsers] returns the error;
    - an error on a continuation page (no row limit) comes after the rows of
      the pages before it, outputs nothing of the failing page, and is
      returned as an error by both functions, whatever its message;
    - under any row budget, a run that returns an error ends on the request
      that failed: no row is output after it. *)
Theorem page_error_fails_atomically :
  forall glv okta d hf ha userId userName,
    reachesFactors glv okta d hf userId userName ->
    reachesAppUsers okta ha ->
    (forall err b,
        failure (first (doListFactors okta userId)) = Some err ->
        listOktaFactors glv okta d hf b
        = (if Strings.Contains err "Not found" then Ret None else Fail err,
           [EvConnect; EvExecute (ListFactors userId)], b)) /\
    (forall err b,
        failure (first (appUsersAnswer okta d (appIdOf ha))) = Some err ->
        listApplicationAssignedUsers okta d ha b
        = (Fail err, [EvConnect; EvExecute (appUsersRequest d (appIdOf ha))], b)) /\
    (forall good bad rest err,
        succeeded (first (doListFactors okta userId)) ->
        more (doListFactors okta userId) = good ++ bad :: rest ->
        Forall succeeded good ->
        failure bad = Some err ->
        listOktaFactors glv okta d hf None
        = (Fail err,
           EvConnect :: EvExecute (ListFactors userId)
             :: map EvStream (rowsOf (factorRow userId userName)
                                     (payload (first (doListFactors okta userId))))
             ++ pagesTrace (rowsOf (factorRow userId userName)) (map payload good)
             ++ [EvNext],
           None)) /\
    (forall good bad rest err,
        succeeded (first (appUsersAnswer okta d (appIdOf ha))) ->
        more (appUsersAnswer okta d (appIdOf ha)) = good ++ bad :: rest ->
        Forall succeeded good ->
        failure bad = Some err ->
        listApplicationAssignedUsers okta d ha None
        = (Fail err,
           EvConnect :: EvExecute (appUsersRequest d (appIdOf ha))
             :: map EvStream (rowsOf (appUserRow (appIdOf ha))
                                     (payload (first (appUsersAnswer okta d (appIdOf ha)))))
             ++ pagesTrace (rowsOf (appUserRow (appIdOf ha))) (map payload good)
             ++ [EvNext],
           None)) /\
    (forall b err,
        result (listOktaFactors glv okta d hf b) = Fail err ->
        endsOnRequest (events (listOktaFactors glv okta d hf b))) /\
    (forall b err,
        result (listApplicationAssignedUsers okta d ha b) = Fail err ->
        endsOnRequest (events (listApplicationAssignedUsers okta d ha b))).
Proof.
  intros glv okta d hf ha userId userName HreachF HreachA.
  split; [|split; [|split; [|split; [|split]]]];
    [| | | |intros b err; apply listOktaFactors_failure_follows_request
           |intros b err; apply listApplicationAssignedUsers_failure_follows_request].
  - intros err b Herr.
    rewrite (listOktaFactors_reached _ _ _ _ _ _ _ HreachF), Herr.
    unfold bind, tell. destruct (Strings.Contains err "Not found"); reflexivity.
  - intros err b Herr.
    rewrite (listApplicationAssignedUsers_reached _ _ _ _ HreachA), Herr.
    reflexivity.
  - intros good bad rest err Hfirst Hmore Hgood Hbad.
    rewrite (listOktaFactors_reached _ _ _ _ _ _ _ HreachF).
    unfold succeeded in Hfirst. rewrite Hfirst, Hmore.
    unfold bind at 1. cbn [tell]. unfold bind at 1. cbn [tell].
    unfold bind. rewrite rangeStream_unbounded.
    rewrite (paging_unbounded_failure _ (rowsOf (factorRow userId userName))
               good bad rest err);
      [reflexivity|intros; apply rangeStream_unbounded|exact Hgood|exact Hbad].
  - intros good bad rest err Hfirst Hmore Hgood Hbad.
    rewrite (listApplicationAssignedUsers_reached _ _ _ _ HreachA).
    unfold succeeded in Hfirst. rewrite Hfirst, Hmore.
    unfold bind at 1. cbn [tell]. unfold bind at 1. cbn [tell].
    unfold bind. rewrite rangeStream_unbounded.
    rewrite (paging_unbounded_failure _ (rowsOf (appUserRow (appIdOf ha)))
               good bad rest err);
      [reflexivity|intros; apply rangeStream_unbounded|exact Hgood|exact Hbad].
Qed.

Lemma page_error_fails_atomically_witness :
  listOktaFactors getListValues_strings failingSecondPageRemote
    (factorQuery []) (parentUserItem "u1" "ann") None
  = (Fail notFoundMessage,
     [EvConnect; EvExecute (ListFactors "u1");
      EvStream (factorInfoRow "u1" "ann" (smsInstance "f1")); EvNext],
     None).
Proof.
  refine (proj1 (proj2 (proj2 (page_error_fails_atomically
            getListValues_strings failingSecondPageRemote (factorQuery [])
            (parentUserItem "u1" "ann") (parentApplication SamlApplication "app1")
            "u1" "ann" _ _)))
            [] {| payload := [Some (smsInstance "f2")];
                  failure := Some notFoundMessage |}
            [ok [Some (smsInstance "f3")]] notFoundMessage
            eq_refl eq_refl _ eq_refl).
  - repeat split; try reflexivity. intros E; discriminate E.
  - split; [reflexivity|]. intros E; discriminate E.
  - constructor.
Defined.

(** C6 as stated fails: a "Not found" error on a continuation page is
    returned as an error by [listOktaFactors], which ends quietly on the
    same error on the first page only; [listApplicationAssignedUsers]
    returns it on any page. *)
Lemma continuation_not_found_is_returned :
  let runF := listOktaFactors getListValues_strings failingSecondPageRemote
                (factorQuery []) (parentUserItem "u1" "ann") None in
  let runA := listApplicationAssignedUsers failingSecondPageRemote
                (appUserQuery [] None) (parentApplication SamlApplication "app1")
                None in
  Strings.Contains notFoundMessage "Not found" = true /\
  result runF = Fail notFoundMessage /\ result runF <> Ret None /\
  result runA = Fail notFoundMessage /\ result runA <> Ret None.
Proof.
  cbv zeta. repeat split; try reflexivity; intros E; discriminate E.
Qed.

(** ** Union resolution and what the callers make of it *)

Lemma listPolicies_unbounded okta d h :
  Connect okta = None ->
  succeeded (first (doListPolicies okta (policyTypeOf d))) ->
  Forall succeeded (more (doListPolicies okta (policyTypeOf d))) ->
  listPolicies okta d h None
  = (Ret None,
     EvConnect :: EvExecute (ListPolicies (policyTypeOf d))
       :: map EvStream (guardedRows
                          (policyRow (payload (first (doListPolicies okta (policyTypeOf d))))))
       ++ pagesTrace (fun nextPolicy => guardedRows (policyRow (Some nextPolicy)))
                     (map payload (more (doListPolicies okta (policyTypeOf d)))),
     None).
Proof.
  intros Hc Hfirst Hmore. unfold listPolicies. rewrite Hc.
  unfold succeeded in Hfirst. rewrite Hfirst.
  unfold bind at 1. cbn [tell]. unfold bind at 1. cbn [tell].
  unfold bind. rewrite streamGuarded_unbounded.
  rewrite (paging_unbounded _
             (fun nextPolicy => guardedRows (policyRow (Some nextPolicy))));
    [reflexivity|intros; apply streamGuarded_unbounded|exact Hmore].
Qed.

Lemma rowsOf_app {A} (rowOf : A -> option Row) xs ys :
  rowsOf rowOf (xs ++ ys) = rowsOf rowOf xs ++ rowsOf rowOf ys.
Proof. unfold rowsOf. apply flat_map_app. Qed.

Lemma rowsOf_pages {A} (rowOf : A -> option Row) (pages : list (list A)) :
  flat_map (rowsOf rowOf) pages = rowsOf rowOf (concat pages).
Proof.
  induction pages as [|p pages IH]; [reflexivity|].
  cbn [flat_map concat]. rewrite rowsOf_app, IH. reflexivity.
Qed.

Lemma rowsOf_In {A} (rowOf : A -> option Row) xs x r :
  In x xs -> rowOf x = Some r -> In r (rowsOf rowOf xs).
Proof.
  intros Hin Hrow. unfold rowsOf. apply in_flat_map.
  exists x. split; [exact Hin|]. rewrite Hrow. left; reflexivity.
Qed.

(** The rows of [listOktaFactors] when every page arrives and there is no
    row limit: one for each item with a non-nil actual instance, in order. *)
Lemma listOktaFactors_rows_unbounded glv okta d h userId userName :
  reachesFactors glv okta d h userId userName ->
  succeeded (first (doListFactors okta userId)) ->
  Forall succeeded (more (doListFactors okta userId)) ->
  rows (events (listOktaFactors glv okta d h None))
  = rowsOf (factorRow userId userName)
           (payload (first (doListFactors okta userId))
            ++ concat (map payload (more (doListFactors okta userId)))).
Proof.
  intros Hreach Hfirst Hmore.
  rewrite (listOktaFactors_unbounded _ _ _ _ _ _ Hreach Hfirst Hmore).
  cbn [events fst snd rows].
  rewrite rows_app, rows_streams, rows_pagesTrace, rowsOf_pages, rowsOf_app.
  reflexivity.
Qed.

(** C7, as the code has it.  Resolution never fails.  For an instance
    outside the recognized ones [getFactorDetails] gives the empty
    [OktaFactor] (no identity) and [convertPolicyRespToStruct] gives nil.
    [listPolicies] outputs nothing for an item that resolves to nil: its
    rows are those of the items that resolve.  [listOktaFactors] does not
    test what [getFactorDetails] returns: its rows are one for every item
    with a non-nil actual instance, so that an instance outside the switch
    is output with the parent's id and login and the empty factor.  For a
    recognized instance the identity of the result is that of the raw item:
    non-empty when the raw item has a non-empty id. *)
Theorem union_resolution :
  (forall tag, getFactorDetails (OtherFactor tag) = emptyOktaFactor) /\
  Factor_Id (OF_UserFactor emptyOktaFactor) = None /\
  (forall policyResp,
      convertPolicyRespToStruct policyResp = None <->
      (policyResp = None \/ policyResp = Some None \/
       exists instance, policyResp = Some (Some instance) /\
                        recognizedPolicy instance = None)) /\
  (forall policyResp b,
      convertPolicyRespToStruct policyResp = None ->
      streamGuarded (policyRow policyResp) b = (false, [], b)) /\
  (forall okta d h,
      Connect okta = None ->
      succeeded (first (doListPolicies okta (policyTypeOf d))) ->
      Forall succeeded (more (doListPolicies okta (policyTypeOf d))) ->
      rows (events (listPolicies okta d h None))
      = flat_map (fun policyResp => guardedRows (policyRow policyResp))
                 (payload (first (doListPolicies okta (policyTypeOf d)))
                  :: map (fun a => Some (payload a))
                         (more (doListPolicies okta (policyTypeOf d))))) /\
  (forall glv okta d h userId userName,
      reachesFactors glv okta d h userId userName ->
      succeeded (first (doListFactors okta userId)) ->
      Forall succeeded (more (doListFactors okta userId)) ->
      let items := payload (first (doListFactors okta userId))
                   ++ concat (map payload (more (doListFactors okta userId))) in
      rows (events (listOktaFactors glv okta d h None))
      = flat_map (fun item =>
                    match item with
                    | Some instance =>
                        [FactorRow {| UserId := userId; UserName := userName;
                                      Factor := getFactorDetails instance |}]
                    | None => []
                    end) items /\
      (forall tag,
          In (Some (OtherFactor tag)) items ->
          In (FactorRow {| UserId := userId; UserName := userName;
                           Factor := emptyOktaFactor |})
             (rows (events (listOktaFactors glv okta d h None))))) /\
  (forall instance uf,
      embeddedFactor instance = Some uf ->
      Factor_Id (OF_UserFactor (getFactorDetails instance)) = Factor_Id uf) /\
  (forall instance p,
      recognizedPolicy instance = Some p ->
      convertPolicyRespToStruct (Some (Some instance)) = Some (policyStructureOf p) /\
      PS_Id (policyStructureOf p) = getStringPtrVal (Policy_Id p) /\
      (forall id, Policy_Id p = Some id -> id <> "" ->
                  PS_Id (policyStructureOf p) <> "")).
Proof.
  split; [reflexivity|]. split; [reflexivity|]. split; [|split; [|split; [|split; [|split]]]].
  - intros policyResp. split.
    + destruct policyResp as [[instance|]|]; auto.
      destruct instance; cbn; intros H; try discriminate H;
        right; right; eexists; split; reflexivity.
    + intros [->|[->|(instance & -> & Hrec)]]; try reflexivity.
      destruct instance; cbn in *; try reflexivity; discriminate Hrec.
  - intros policyResp b H. unfold policyRow. rewrite H. reflexivity.
  - intros okta d h Hc Hfirst Hmore.
    rewrite (listPolicies_unbounded _ _ _ Hc Hfirst Hmore).
    cbn [events fst snd rows flat_map].
    rewrite rows_app, rows_streams, rows_pagesTrace. f_equal.
    clear Hmore.
    induction (more (doListPolicies okta (policyTypeOf d))) as [|a l IH];
      [reflexivity|].
    cbn [map flat_map]. rewrite IH. reflexivity.
  - intros glv okta d h userId userName Hreach Hfirst Hmore items.
    rewrite (listOktaFactors_rows_unbounded _ _ _ _ _ _ Hreach Hfirst Hmore).
    fold items. split.
    + unfold rowsOf. apply flat_map_ext. intros [instance|]; reflexivity.
    + intros tag Hin. apply (rowsOf_In _ _ (Some (OtherFactor tag))); [exact Hin|].
      reflexivity.
  - intros instance uf H. destruct instance; cbn in *; congruence.
  - intros instance p H.
    destruct instance; cbn in H; try discriminate H; injection H as <-;
      (split; [reflexivity|]; split; [reflexivity|]);
      intros id Hid Hne; cbn; rewrite Hid; exact Hne.
Qed.

(** The scenario of one page holding a password policy p1, followed by an
    authenticator enrollment policy p2 and an access policy p3: two rows,
    p1 and p2. *)
Example two_recognized_policies :
  map (fun row => match row with PolicyRow ps => PS_Id ps | _ => "" end)
      (rows (events (listPolicies
         {| Connect := None;
            doListFactors := fun _ => emptyListing;
            doGetUser := fun _ => inl "Not found";
            doGetFactor := fun _ _ => inl "Not found";
            doListApplicationUsers := fun _ _ _ => emptyListing;
            doGetApplicationUser := fun _ _ => inl "Not found";
            doListPolicies := fun _ =>
              {| first := ok (Some (Some (PasswordPolicy (policyWithId (Some "p1") "one"))));
                 more := [ ok (Some (AuthenticatorEnrollmentPolicy
                                       (policyWithId (Some "p2") "two")));
                           ok (Some (AccessPolicy (policyWithId (Some "p3") "three"))) ] |};
            doListPolicyRules := fun _ => emptyListing;
            doListPolicyMappings := fun _ => emptyListing |}
         {| TableName := "okta_password_policy"; EqualsQuals := []; Limit := None |}
         {| h_Item := None |} None)))
  = ["p1"; "p2"].
Proof. reflexivity. Qed.

(** C7 as stated fails twice.  A recognized policy that comes without an
    id -- a nil [Id], which [getStringPtrVal] turns into the empty string --
    is output by [listPolicies] as a row whose identity is empty.  And
    [listOktaFactors] outputs a row for an item whose instance is outside
    the switch of [getFactorDetails], built from the empty [OktaFactor]. *)
Lemma rows_without_identity :
  let runP := listPolicies
                {| Connect := None;
                   doListFactors := fun _ => emptyListing;
                   doGetUser := fun _ => inl "Not found";
                   doGetFactor := fun _ _ => inl "Not found";
                   doListApplicationUsers := fun _ _ _ => emptyListing;
                   doGetApplicationUser := fun _ _ => inl "Not found";
                   doListPolicies := fun _ =>
                     {| first := ok (Some (Some (PasswordPolicy (policyWithId None "one"))));
                        more := [] |};
                   doListPolicyRules := fun _ => emptyListing;
                   doListPolicyMappings := fun _ => emptyListing |}
                policyQuery {| h_Item := None |} None in
  let runF := listOktaFactors getListValues_strings
                (factorRemote None
                   (fun _ => {| first := ok [Some (OtherFactor "custom")]; more := [] |}))
                (factorQuery []) (parentUserItem "u1" "ann") None in
  recognizedPolicy (PasswordPolicy (policyWithId None "one"))
  = Some (policyWithId None "one") /\
  rows (events runP) = [PolicyRow (policyStructureOf (policyWithId None "one"))] /\
  PS_Id (policyStructureOf (policyWithId None "one")) = "" /\
  getFactorDetails (OtherFactor "custom") = emptyOktaFactor /\
  rows (events runF)
  = [FactorRow {| UserId := "u1"; UserName := "ann"; Factor := emptyOktaFactor |}].
Proof. cbv zeta. repeat split; reflexivity. Qed.

(** ** Not found at a Get *)

Lemma getOktaFactor_reached okta d h b :
  reachesGetFactor okta d ->
  getOktaFactor okta d h b
  = (let userId := GetStringValue (EqualsQual d "user_id") in
     let factorId := GetStringValue (EqualsQual d "id") in
     tell EvConnect ;;
     tell (EvExecute (GetUser userId)) ;;
     match doGetUser okta userId with
     | inl err =>
         if Strings.Contains err "Not found" then ret (Ret None) else ret (Fail err)
     | inr user =>
         match User_Profile user with
         | None => ret Panic
         | Some userProfile =>
             tell (EvExecute (GetFactor userId factorId)) ;;
             match doGetFactor okta userId factorId with
             | inl err => ret (Fail err)
             | inr None => ret (Ret None)
             | inr (Some res) =>
                 match Login userProfile with
                 | None => ret Panic
                 | Some userName =>
                     ret (Ret (Some (FactorRow
                       {| UserId := userId; UserName := userName;
                          Factor := {| OF_UserFactor := res;
                                       OF_Profile := Factor_Profile res |} |})))
                 end
             end
         end
     end) b.
Proof.
  intros (Hc & Hu & Hf). unfold getOktaFactor.
  apply String.eqb_neq in Hu, Hf. rewrite Hu, Hf, Hc. reflexivity.
Qed.

Lemma getApplicationAssignedUser_reached okta d h b :
  reachesGetAppUser okta d ->
  getApplicationAssignedUser okta d h b
  = (let appId := GetStringValue (EqualsQual d "app_id") in
     let userId := GetStringValue (EqualsQual d "id") in
     tell EvConnect ;;
     tell (EvExecute (GetApplicationUser appId userId)) ;;
     match doGetApplicationUser okta appId userId with
     | inl err => ret (Fail err)
     | inr None => ret Panic
     | inr (Some user) =>
         ret (Ret (Some (AppUserRow {| AppId := appId; AppUser_ := user |})))
     end) b.
Proof.
  intros (Hc & Ha & Hu). unfold getApplicationAssignedUser.
  apply String.eqb_neq in Ha, Hu. rewrite Ha, Hu, Hc. reflexivity.
Qed.

Lemma isNotFoundError_head item items err :
  Strings.Contains err item = true -> isNotFoundError (item :: items) err = true.
Proof. intros H. unfold isNotFoundError. cbn. rewrite H. reflexivity. Qed.

(** A Get run under its configuration: the outcome of the hydrate function,
    with an error that the configuration ignores turned into "no row". *)
Lemma runGet_of cfg okta d h b r evs b' :
  Hydrate cfg okta d h b = (r, evs, b') ->
  runGet cfg okta d h b
  = (match r with
     | Fail err => if ShouldIgnoreError cfg err then Ret None else Fail err
     | _ => r
     end, evs, b').
Proof.
  intros E. unfold runGet, bind. rewrite E.
  destruct r as [v|err|]; cbn; rewrite ?app_nil_r; try reflexivity.
  destruct (ShouldIgnoreError cfg err); cbn; rewrite app_nil_r; reflexivity.
Qed.

(** What the hydrate functions themselves return on an error of their
    remote calls: [getOktaFactor] tests the message of a [GetUser] error
    and returns a [GetFactor] error as it is; [getApplicationAssignedUser]
    returns the error as it is. *)
Lemma getOktaFactor_user_error okta d h b err :
  reachesGetFactor okta d ->
  doGetUser okta (GetStringValue (EqualsQual d "user_id")) = inl err ->
  getOktaFactor okta d h b
  = (if Strings.Contains err "Not found" then Ret None else Fail err,
     [EvConnect; EvExecute (GetUser (GetStringValue (EqualsQual d "user_id")))], b).
Proof.
  intros Hreach Herr. rewrite (getOktaFactor_reached _ _ _ _ Hreach). cbv zeta.
  rewrite Herr. unfold bind, tell.
  destruct (Strings.Contains err "Not found"); reflexivity.
Qed.

Lemma getOktaFactor_factor_error okta d h b user userProfile err :
  reachesGetFactor okta d ->
  doGetUser okta (GetStringValue (EqualsQual d "user_id")) = inr user ->
  User_Profile user = Some userProfile ->
  doGetFactor okta (GetStringValue (EqualsQual d "user_id"))
              (GetStringValue (EqualsQual d "id")) = inl err ->
  getOktaFactor okta d h b
  = (Fail err,
     [EvConnect; EvExecute (GetUser (GetStringValue (EqualsQual d "user_id")));
      EvExecute (GetFactor (GetStringValue (EqualsQual d "user_id"))
                           (GetStringValue (EqualsQual d "id")))], b).
Proof.
  intros Hreach Huser Hprofile Herr.
  rewrite (getOktaFactor_reached _ _ _ _ Hreach). cbv zeta.
  rewrite Huser, Hprofile, Herr. reflexivity.
Qed.

Lemma getApplicationAssignedUser_error okta d h b err :
  reachesGetAppUser okta d ->
  doGetApplicationUser okta (GetStringValue (EqualsQual d "app_id"))
                       (GetStringValue (EqualsQual d "id")) = inl err ->
  getApplicationAssignedUser okta d h b
  = (Fail err,
     [EvConnect;
      EvExecute (GetApplicationUser (GetStringValue (EqualsQual d "app_id"))
                                    (GetStringValue (EqualsQual d "id")))], b).
Proof.
  intros Hreach Herr.
  rewrite (getApplicationAssignedUser_reached _ _ _ _ Hreach). cbv zeta.
  rewrite Herr. reflexivity.
Qed.

(** C5.  A Get is the hydrate function run under the Get configuration of
    its table, and both tables declare [ShouldIgnoreError:
    isNotFoundError(...)] with "Not found" in it.  When a remote call of the
    Get fails with an error that carries a not-found condition -- one that
    the table's predicate accepts, as every message containing "Not found"
    is -- the Get yields no row and no error: so for the [GetUser] call and
    for the [GetFactor] call of [getOktaFactor], and for the
    [GetApplicationUser] call of [getApplicationAssignedUser].  Nothing
    follows the failed call. *)
Theorem get_not_found :
  forall okta h b,
    (forall err,
        Strings.Contains err "Not found" = true ->
        ShouldIgnoreError tableOktaFactor_Get err = true /\
        ShouldIgnoreError tableOktaApplicationAssignedUser_Get err = true) /\
    (forall d,
        reachesGetFactor okta d ->
        let userId := GetStringValue (EqualsQual d "user_id") in
        let factorId := GetStringValue (EqualsQual d "id") in
        (forall err,
            doGetUser okta userId = inl err ->
            ShouldIgnoreError tableOktaFactor_Get err = true ->
            runGet tableOktaFactor_Get okta d h b
            = (Ret None, [EvConnect; EvExecute (GetUser userId)], b)) /\
        (forall user userProfile err,
            doGetUser okta userId = inr user ->
            User_Profile user = Some userProfile ->
            doGetFactor okta userId factorId = inl err ->
            ShouldIgnoreError tableOktaFactor_Get err = true ->
            runGet tableOktaFactor_Get okta d h b
            = (Ret None,
               [EvConnect; EvExecute (GetUser userId);
                EvExecute (GetFactor userId factorId)], b))) /\
    (forall d,
        reachesGetAppUser okta d ->
        let appId := GetStringValue (EqualsQual d "app_id") in
        let appUserId := GetStringValue (EqualsQual d "id") in
        forall err,
          doGetApplicationUser okta appId appUserId = inl err ->
          ShouldIgnoreError tableOktaApplicationAssignedUser_Get err = true ->
          runGet tableOktaApplicationAssignedUser_Get okta d h b
          = (Ret None, [EvConnect; EvExecute (GetApplicationUser appId appUserId)], b)).
Proof.
  intros okta h b. split; [|split].
  - intros err Hnf. split; apply isNotFoundError_head; exact Hnf.
  - intros d Hreach userId factorId. split.
    + intros err Herr Hignore.
      rewrite (runGet_of tableOktaFactor_Get okta d h b _ _ _
                 (getOktaFactor_user_error okta d h b err Hreach Herr)).
      destruct (Strings.Contains err "Not found"); [reflexivity|].
      rewrite Hignore. reflexivity.
    + intros user userProfile err Huser Hprofile Herr Hignore.
      rewrite (runGet_of tableOktaFactor_Get okta d h b _ _ _
                 (getOktaFactor_factor_error okta d h b user userProfile err
                    Hreach Huser Hprofile Herr)).
      rewrite Hignore. reflexivity.
  - intros d Hreach appId appUserId err Herr Hignore.
    rewrite (runGet_of tableOktaApplicationAssignedUser_Get okta d h b _ _ _
               (getApplicationAssignedUser_error okta d h b err Hreach Herr)).
    rewrite Hignore. reflexivity.
Qed.

(** The factor f9 of the user u1, and the user u1 of the application app1,
    are not found: each Get yields no row and no error. *)
Lemma get_not_found_witness :
  runGet tableOktaFactor_Get missingFactorRemote factorGetQuery
    {| h_Item := None |} None
  = (Ret None,
     [EvConnect; EvExecute (GetUser "u1"); EvExecute (GetFactor "u1" "f9")], None)
  /\ runGet tableOktaApplicationAssignedUser_Get missingFactorRemote appUserGetQuery
       {| h_Item := None |} None
     = (Ret None, [EvConnect; EvExecute (GetApplicationUser "app1" "u1")], None).
Proof.
  pose proof (get_not_found missingFactorRemote {| h_Item := None |} None)
    as (_ & HF & HA).
  split.
  - refine (proj2 (HF factorGetQuery _) _ _ factorNotFound eq_refl eq_refl eq_refl
              eq_refl).
    repeat split; try reflexivity; intros E; discriminate E.
  - refine (HA appUserGetQuery _ notFoundMessage eq_refl eq_refl).
    repeat split; try reflexivity; intros E; discriminate E.
Defined.

(** The hydrate functions alone, on the same inputs, return the error of
    [GetFactor] and of [GetApplicationUser]: it is the Get configuration
    that classifies it. *)
Remark hydrate_returns_the_error :
  result (getOktaFactor missingFactorRemote factorGetQuery {| h_Item := None |} None)
  = Fail factorNotFound /\
  result (getApplicationAssignedUser missingFactorRemote appUserGetQuery
            {| h_Item := None |} None)
  = Fail notFoundMessage.
Proof. split; reflexivity. Qed.

(** ** Errors of the enrichment hydrates *)

Lemma appendPages_failure {A} (acc : list A) good bad rest err b :
  Forall succeeded good ->
  failure bad = Some err ->
  appendPages acc (good ++ bad :: rest) b
  = (inl err, repeat EvNext (S (length good)), b).
Proof.
  intros Hgood Hbad. revert acc.
  induction Hgood as [|page pages Hpage _ IH]; intros acc.
  - cbn [app appendPages]. rewrite Hbad. reflexivity.
  - cbn [app appendPages]. unfold succeeded in Hpage. rewrite Hpage.
    unfold bind. cbn [tell]. rewrite IH. reflexivity.
Qed.

(** C8, as the code has it.  [getOktaPolicyAssociatedResources] yields
    [(nil, nil)] -- an absent value, the row stands -- when the first page
    of mappings fails with a message that contains "not found" in any
    letter case, or "404"; any other first-page error is returned.
    [getOktaPolicyRules] returns every error of its first page, a not-found
    one included, for every row whose policy id it resolves -- the rows of
    the union type among them.  An error on a continuation page is returned
    by both. *)
Theorem enrichment_errors :
  forall structToMap okta d b,
    (forall h policyId,
        reachesPolicyFetch okta h policyIdForResources policyId ->
        (forall err,
            failure (first (doListPolicyMappings okta policyId)) = Some err ->
            getOktaPolicyAssociatedResources okta d h b
            = (if Strings.Contains (Strings.ToLower err) "not found"
                  || Strings.Contains err "404"
               then Ret None else Fail err,
               [EvConnect; EvExecute (ListPolicyMappings policyId)], b)) /\
        (forall good bad rest err,
            succeeded (first (doListPolicyMappings okta policyId)) ->
            more (doListPolicyMappings okta policyId) = good ++ bad :: rest ->
            Forall succeeded good -> failure bad = Some err ->
            getOktaPolicyAssociatedResources okta d h b
            = (Fail err,
               EvConnect :: EvExecute (ListPolicyMappings policyId)
                 :: repeat EvNext (S (length good)), b))) /\
    (forall h policyId,
        reachesPolicyFetch okta h policyIdForRules policyId ->
        (forall err,
            failure (first (doListPolicyRules okta policyId)) = Some err ->
            getOktaPolicyRules structToMap okta d h b
            = (Fail err, [EvConnect; EvExecute (ListPolicyRules policyId)], b)) /\
        (forall good bad rest err,
            succeeded (first (doListPolicyRules okta policyId)) ->
            more (doListPolicyRules okta policyId) = good ++ bad :: rest ->
            Forall succeeded good -> failure bad = Some err ->
            getOktaPolicyRules structToMap okta d h b
            = (Fail err,
               EvConnect :: EvExecute (ListPolicyRules policyId)
                 :: repeat EvNext (S (length good)), b))).
Proof.
  intros structToMap okta d b. split.
  - intros h policyId (Hc & (item & Hi & Hid) & Hne).
    apply String.eqb_neq in Hne. split.
    + intros err Herr. unfold getOktaPolicyAssociatedResources.
      rewrite Hi, Hid, Hne, Hc, Herr. unfold bind, tell.
      destruct (Strings.Contains (Strings.ToLower err) "not found"
                || Strings.Contains err "404"); reflexivity.
    + intros good bad rest err Hfirst Hmore Hgood Hbad.
      unfold getOktaPolicyAssociatedResources.
      unfold succeeded in Hfirst. rewrite Hi, Hid, Hne, Hc, Hfirst, Hmore.
      unfold bind at 1. cbn [tell]. unfold bind at 1. cbn [tell].
      unfold bind. rewrite (appendPages_failure _ good bad rest err _ Hgood Hbad).
      cbn [ret app]. rewrite ?app_nil_r. reflexivity.
  - intros h policyId (Hc & (item & Hi & Hid) & Hne).
    apply String.eqb_neq in Hne. split.
    + intros err Herr. unfold getOktaPolicyRules.
      rewrite Hi, Hid, Hne, Hc, Herr. reflexivity.
    + intros good bad rest err Hfirst Hmore Hgood Hbad.
      unfold getOktaPolicyRules.
      unfold succeeded in Hfirst. rewrite Hi, Hid, Hne, Hc, Hfirst, Hmore.
      unfold bind at 1. cbn [tell]. unfold bind at 1. cbn [tell].
      unfold bind. rewrite (appendPages_failure _ good bad rest err _ Hgood Hbad).
      cbn [ret app]. rewrite ?app_nil_r. reflexivity.
Qed.

(** The mappings of the policy p1 are not found: an absent value.  The
    rules of a sign-on policy row of the union type are not found: the
    error is returned. *)
Lemma enrichment_errors_witness :
  getOktaPolicyAssociatedResources missingPolicyRemote policyQuery (policyItem "p1") None
  = (Ret None, [EvConnect; EvExecute (ListPolicyMappings "p1")], None)
  /\ getOktaPolicyRules (fun rule => inr rule) missingPolicyRemote policyQuery
       (signonPolicyItem "s1") None
     = (Fail mappingsNotFound, [EvConnect; EvExecute (ListPolicyRules "s1")], None).
Proof.
  pose proof (enrichment_errors (fun rule => inr rule) missingPolicyRemote
                policyQuery None) as (Hres & Hrules).
  split.
  - refine (proj1 (Hres (policyItem "p1") "p1" _) mappingsNotFound eq_refl).
    split; [reflexivity|]. split; [eexists; split; reflexivity|].
    intros E; discriminate E.
  - refine (proj1 (Hrules (signonPolicyItem "s1") "s1" _) mappingsNotFound eq_refl).
    split; [reflexivity|]. split; [eexists; split; reflexivity|].
    intros E; discriminate E.
Defined.

(** C8 as stated fails for [getOktaPolicyRules]: the not-found error that
    leaves the [resource_mapping] column empty is returned as an error when
    it comes from the rules. *)
Lemma rules_not_found_is_returned :
  (Strings.Contains (Strings.ToLower mappingsNotFound) "not found"
   || Strings.Contains mappingsNotFound "404") = true /\
  result (getOktaPolicyAssociatedResources missingPolicyRemote policyQuery
            (policyItem "p1") None) = Ret None /\
  result (getOktaPolicyRules (fun rule => inr rule) missingPolicyRemote policyQuery
            (policyItem "p1") None) = Fail mappingsNotFound.
Proof. repeat split; reflexivity. Qed.

(** A limit of two rows against three pages of ten: two rows are output and
    the run ends with the second one; the other pages are never requested. *)
Example limit_two_of_thirty :
  listApplicationAssignedUsers threePagesRemote (appUserQuery [] (Some 2%Z))
    (parentApplication SamlApplication "app1") (Some 2)
  = (Ret None,
     [EvConnect; EvExecute (ListApplicationUsers "app1" 2 None);
      EvStream (appUserInfoRow "app1" (appUserNamed "a0"));
      EvStream (appUserInfoRow "app1" (appUserNamed "a1"))],
     Some 0).
Proof. reflexivity. Qed.

(** A limit of twelve: the second page is requested after the ten rows of
    the first, and the run ends with the second row of the second page. *)
Example limit_twelve_of_thirty :
  let run := listOktaFactors getListValues_strings threePagesRemote
               (factorQuery []) (parentUserItem "u1" "ann") (Some 12) in
  length (rows (events run)) = 12 /\
  length (filter isFetch (events run)) = 2 /\
  last (events run) EvConnect = EvStream (factorInfoRow "u1" "ann" (smsInstance "b1")).
Proof. cbv zeta. repeat split; reflexivity. Qed.

(** ** A row limit cuts the run short and changes nothing else *)

Lemma streamGuarded_prefixing row : prefixing (streamGuarded row).
Proof.
  split; [destruct row; reflexivity|]. split; [destruct row; reflexivity|].
  intros n. destruct row as [r|]; destruct n as [|[|n]]; cbn;
    repeat split; intros; try discriminate; try reflexivity; f_equal; lia.
Qed.

Lemma firstn_exhausted {A} (n : nat) (a b : list A) :
  length (firstn n a) = n -> firstn n (a ++ b) = firstn n a.
Proof.
  intros H. rewrite length_firstn in H.
  rewrite firstn_app. replace (n - length a) with 0 by lia.
  cbn. apply app_nil_r.
Qed.

Lemma firstn_whole {A} (n : nat) (a b : list A) :
  firstn n a = a -> firstn n (a ++ b) = a ++ firstn (n - length a) b.
Proof. intros H. rewrite firstn_app, H. reflexivity. Qed.

Lemma firstn_whole_length {A} (n : nat) (a : list A) :
  firstn n a = a -> length a <= n.
Proof. intros H. rewrite <- H, length_firstn. lia. Qed.

(** Sequencing: a step, then -- unless it returned -- the rest. *)
Lemma seq_prefixing (m rest : Hyd bool) :
  prefixing m -> prefixing rest ->
  prefixing (bind m (fun returned => if returned then ret true else rest)).
Proof.
  intros (HmR & HmB & Hm) (HrR & HrB & Hr).
  split; [|split].
  - rewrite bind_result, HmR, HmB. exact HrR.
  - rewrite bind_remaining, HmR, HmB. exact HrB.
  - intros n.
    rewrite !bind_result, !bind_events, !bind_remaining, HmR, HmB.
    destruct (Hm n) as (Hrows & Hb & Ht & Hf). rewrite Hb.
    rewrite !rows_app.
    destruct (result (m (Some n))) eqn:E.
    + specialize (Ht eq_refl). cbn [ret events result remaining fst snd rows].
      rewrite app_nil_r. split; [|split; [|split]].
      * rewrite Hrows. symmetry. apply firstn_exhausted.
        rewrite <- Hrows. exact Ht.
      * reflexivity.
      * intros _. exact Ht.
      * discriminate.
    + specialize (Hf eq_refl).
      assert (Hwhole : firstn n (rows (events (m None))) = rows (events (m None)))
        by congruence.
      pose proof (firstn_whole_length _ _ Hwhole) as Hle.
      rewrite Hf in *.
      destruct (Hr (n - length (rows (events (m None))))) as (Hrows' & Hb' & Ht' & Hf').
      rewrite Hb', length_app. split; [|split; [|split]].
      * rewrite Hrows'. symmetry. apply firstn_whole. exact Hwhole.
      * f_equal. lia.
      * intros H. specialize (Ht' H). lia.
      * intros H. rewrite (Hf' H). reflexivity.
Qed.

Lemma rangeStream_prefixing {A} (rowOf : A -> option Row) xs :
  prefixing (rangeStream rowOf xs).
Proof.
  induction xs as [|x xs IH].
  - split; [reflexivity|]. split; [reflexivity|].
    intros n. cbn. rewrite firstn_nil. repeat split; try discriminate.
    f_equal; lia.
  - cbn [rangeStream]. apply seq_prefixing; [apply streamGuarded_prefixing|exact IH].
Qed.

Lemma seq_prefixing_result {A} (m : Hyd bool) (rest : Hyd (Result A)) :
  prefixing m -> prefixing_result rest ->
  prefixing_result
    (bind m (fun returned => if returned then ret (Ret None) else rest)).
Proof.
  intros (HmR & HmB & Hm) Hr n.
  rewrite !bind_result, !bind_events, HmR, HmB.
  destruct (Hm n) as (Hrows & Hb & Ht & Hf). rewrite Hb.
  rewrite !rows_app.
  destruct (result (m (Some n))) eqn:E.
  - specialize (Ht eq_refl). cbn [ret events result remaining fst snd rows].
    rewrite app_nil_r. split; [|left; reflexivity].
    rewrite Hrows. symmetry. apply firstn_exhausted.
    rewrite <- Hrows. exact Ht.
  - specialize (Hf eq_refl).
    assert (Hwhole : firstn n (rows (events (m None))) = rows (events (m None)))
      by congruence.
    rewrite Hf in *.
    destruct (Hr (n - length (rows (events (m None))))) as (Hrows' & Hres').
    split; [|exact Hres'].
    rewrite Hrows'. symmetry. apply firstn_whole. exact Hwhole.
Qed.

Lemma tell_prefixing_result {A} (e : Event) (m : Hyd (Result A)) :
  rows [e] = [] -> prefixing_result m ->
  prefixing_result (bind (tell e) (fun _ => m)).
Proof.
  intros He Hm n.
  rewrite !bind_result, !bind_events. cbn [tell events remaining result fst snd].
  destruct (Hm n) as (Hrows & Hres).
  rewrite !rows_app, He. cbn [app]. split; assumption.
Qed.

Lemma ret_prefixing_result {A} (r : Result A) : prefixing_result (ret r).
Proof. intros n. cbn. rewrite firstn_nil. split; [reflexivity|right; reflexivity]. Qed.

Lemma paging_prefixing {P A} (body : P -> Hyd bool) pages :
  (forall p, prefixing (body p)) ->
  prefixing_result (paging (A := A) body pages).
Proof.
  intros Hbody. induction pages as [|page pages IH].
  - apply ret_prefixing_result.
  - cbn [paging]. apply tell_prefixing_result; [reflexivity|].
    destruct (failure page) as [err|]; [apply ret_prefixing_result|].
    apply seq_prefixing_result; [apply Hbody|exact IH].
Qed.

Ltac prefix_step :=
  first [ apply ret_prefixing_result
        | apply tell_prefixing_result; [reflexivity|]
        | apply seq_prefixing_result;
          [first [apply rangeStream_prefixing|apply streamGuarded_prefixing]|]
        | apply paging_prefixing; intros;
          first [apply rangeStream_prefixing|apply streamGuarded_prefixing] ].

Lemma listOktaFactors_prefixing glv okta d h :
  prefixing_result (listOktaFactors glv okta d h).
Proof.
  unfold listOktaFactors. prefix_step.
  destruct (Connect okta); [prefix_step|].
  destruct (parentUser h) as [[userId userName]|]; [|prefix_step].
  destruct (userIdQualRejects glv d userId); [prefix_step|].
  destruct (userId =? ""); [prefix_step|]. prefix_step.
  destruct (failure (first (doListFactors okta userId))) as [err|].
  - destruct (Strings.Contains err "Not found"); prefix_step.
  - repeat prefix_step.
Qed.

Lemma listApplicationAssignedUsers_prefixing okta d h :
  prefixing_result (listApplicationAssignedUsers okta d h).
Proof.
  unfold listApplicationAssignedUsers.
  destruct (appIdOf h =? ""); [prefix_step|]. prefix_step.
  destruct (Connect okta); [prefix_step|]. prefix_step.
  destruct (failure (first (appUsersAnswer okta d (appIdOf h)))); repeat prefix_step.
Qed.

Lemma listPolicies_prefixing okta d h :
  prefixing_result (listPolicies okta d h).
Proof.
  unfold listPolicies. prefix_step.
  destruct (Connect okta); [prefix_step|]. prefix_step.
  destruct (failure (first (doListPolicies okta (policyTypeOf d)))); repeat prefix_step.
Qed.

(** X1.  For [listOktaFactors], [listApplicationAssignedUsers] and
    [listPolicies], whatever the remote answers (failing pages included):
    the rows output under the row limit [N] are the first [N] rows of the
    run without limit, in the same order; and the function returns
    [(nil, nil)] or what it returns without limit -- a limit never brings
    an error or a row of its own. *)
Theorem limit_outputs_first_rows :
  forall glv okta d h (N : nat),
    Forall (fun f : Hyd (Result Row) =>
              rows (events (f (Some N))) = firstn N (rows (events (f None))) /\
              (result (f (Some N)) = Ret None \/
               result (f (Some N)) = result (f None)))
           [ listOktaFactors glv okta d h;
             listApplicationAssignedUsers okta d h;
             listPolicies okta d h ].
Proof.
  intros glv okta d h N.
  repeat apply Forall_cons; [| | |apply Forall_nil].
  - apply listOktaFactors_prefixing.
  - apply listApplicationAssignedUsers_prefixing.
  - apply listPolicies_prefixing.
Qed.

(** ** A run started with no row left *)

Lemma rangeStream_exhausted {A} (rowOf : A -> option Row) xs :
  rangeStream rowOf xs (Some 0)
  = (match rowsOf rowOf xs with [] => false | _ :: _ => true end, [], Some 0).
Proof.
  induction xs as [|x xs IH]; [reflexivity|].
  cbn [rangeStream]. unfold bind, rowsOf in *. cbn [flat_map].
  destruct (rowOf x) as [r|]; cbn; [reflexivity|].
  rewrite IH. reflexivity.
Qed.

(** X2.  A list function called with no row left still connects and
    requests its first page; if that page holds an item that would give a
    row, it outputs nothing, requests no further page and returns
    [(nil, nil)]. *)
Theorem exhausted_budget_still_requests :
  forall glv okta d hf ha userId userName,
    reachesFactors glv okta d hf userId userName ->
    succeeded (first (doListFactors okta userId)) ->
    rowsOf (factorRow userId userName) (payload (first (doListFactors okta userId))) <> [] ->
    reachesAppUsers okta ha ->
    succeeded (first (appUsersAnswer okta d (appIdOf ha))) ->
    payload (first (appUsersAnswer okta d (appIdOf ha))) <> [] ->
    succeeded (first (doListPolicies okta (policyTypeOf d))) ->
    policyRow (payload (first (doListPolicies okta (policyTypeOf d)))) <> None ->
    listOktaFactors glv okta d hf (Some 0)
    = (Ret None, [EvConnect; EvExecute (ListFactors userId)], Some 0) /\
    listApplicationAssignedUsers okta d ha (Some 0)
    = (Ret None, [EvConnect; EvExecute (appUsersRequest d (appIdOf ha))], Some 0) /\
    listPolicies okta d hf (Some 0)
    = (Ret None, [EvConnect; EvExecute (ListPolicies (policyTypeOf d))], Some 0).
Proof.
  intros glv okta d hf ha userId userName HreachF HfirstF HrowsF
         HreachA HfirstA HrowsA HfirstP HrowP.
  split; [|split].
  - rewrite (listOktaFactors_reached _ _ _ _ _ _ _ HreachF).
    unfold succeeded in HfirstF. rewrite HfirstF.
    unfold bind at 1. cbn [tell]. unfold bind at 1. cbn [tell].
    unfold bind. rewrite rangeStream_exhausted.
    destruct (rowsOf (factorRow userId userName)
                     (payload (first (doListFactors okta userId))));
      [contradiction HrowsF; reflexivity|reflexivity].
  - rewrite (listApplicationAssignedUsers_reached _ _ _ _ HreachA).
    unfold succeeded in HfirstA. rewrite HfirstA.
    unfold bind at 1. cbn [tell]. unfold bind at 1. cbn [tell].
    unfold bind. rewrite rangeStream_exhausted, rowsOf_appUsers.
    destruct (payload (first (appUsersAnswer okta d (appIdOf ha))));
      [contradiction HrowsA; reflexivity|reflexivity].
  - destruct HreachF as (Hc & _). unfold listPolicies. rewrite Hc.
    unfold succeeded in HfirstP. rewrite HfirstP.
    destruct (policyRow (payload (first (doListPolicies okta (policyTypeOf d)))))
      as [row|]; [reflexivity|contradiction HrowP; reflexivity].
Qed.

Lemma exhausted_budget_still_requests_witness :
  listOktaFactors getListValues_strings threePagesRemote
    (factorQuery []) (parentUserItem "u1" "ann") (Some 0)
  = (Ret None, [EvConnect; EvExecute (ListFactors "u1")], Some 0).
Proof.
  refine (proj1 (exhausted_budget_still_requests
            getListValues_strings
            {| Connect := None;
               doListFactors := doListFactors threePagesRemote;
               doGetUser := doGetUser threePagesRemote;
               doGetFactor := doGetFactor threePagesRemote;
               doListApplicationUsers := doListApplicationUsers threePagesRemote;
               doGetApplicationUser := doGetApplicationUser threePagesRemote;
               doListPolicies := fun _ =>
                 {| first := ok (Some (Some (PasswordPolicy (policyWithId (Some "p1") "one"))));
                    more := [] |};
               doListPolicyRules := doListPolicyRules threePagesRemote;
               doListPolicyMappings := doListPolicyMappings threePagesRemote |}
            (factorQuery []) (parentUserItem "u1" "ann")
            (parentApplication SamlApplication "app1") "u1" "ann"
            _ eq_refl _ _ eq_refl _ eq_refl _)).
  - repeat split; try reflexivity. intros E; discriminate E.
  - intros E; discriminate E.
  - split; [reflexivity|]. intros E; discriminate E.
  - intros E; discriminate E.
  - intros E; discriminate E.
Defined.

(** ** One connection, one request *)

Lemma quiet_requestsOf evs :
  existsb isRequest evs = false -> filter isRequest evs = [].
Proof.
  induction evs as [|e evs IH]; [reflexivity|].
  cbn. destruct (isRequest e); [discriminate|]. exact IH.
Qed.

Lemma listPolicies_fetches okta d h b :
  Connect okta = None ->
  exists evs,
    events (listPolicies okta d h b)
    = EvConnect :: EvExecute (ListPolicies (policyTypeOf d)) :: evs
    /\ existsb isRequest evs = false.
Proof.
  intros Hc. unfold listPolicies. rewrite Hc.
  rewrite !bind_events. cbn [tell events result remaining fst snd app].
  eexists; split; [reflexivity|].
  destruct (failure (first (doListPolicies okta (policyTypeOf d)))) as [err|];
    [reflexivity|].
  rewrite bind_events, existsb_app, streamGuarded_quiet.
  destruct (result _); [reflexivity|].
  apply paging_quiet. intros; apply streamGuarded_quiet.
Qed.

(** X3.  A call of a list function connects at most once and executes at
    most one request, after connecting: the factor list of the parent user
    (whose id is not empty), the user list of the parent application (whose
    id is not empty), or the policy list of the table's type -- PASSWORD,
    MFA_ENROLL, or the empty string for any other table.  Continuation
    pages are followed through the page cursor only. *)
Theorem list_connects_and_requests_once :
  forall glv okta d h b,
    (requestsOf (events (listOktaFactors glv okta d h b)) = [EvConnect] \/
     exists userId userName,
       parentUser h = Some (userId, userName) /\ userId <> "" /\
       requestsOf (events (listOktaFactors glv okta d h b))
       = [EvConnect; EvExecute (ListFactors userId)]) /\
    (requestsOf (events (listApplicationAssignedUsers okta d h b)) = [] \/
     requestsOf (events (listApplicationAssignedUsers okta d h b)) = [EvConnect] \/
     appIdOf h <> "" /\
     requestsOf (events (listApplicationAssignedUsers okta d h b))
     = [EvConnect; EvExecute (appUsersRequest d (appIdOf h))]) /\
    (requestsOf (events (listPolicies okta d h b)) = [EvConnect] \/
     requestsOf (events (listPolicies okta d h b))
     = [EvConnect; EvExecute (ListPolicies (policyTypeOf d))]) /\
    In (policyTypeOf d) ["PASSWORD"; "MFA_ENROLL"; ""].
Proof.
  intros glv okta d h b. split; [|split; [|split]].
  - destruct (Connect okta) as [err|] eqn:Hc.
    { left. unfold listOktaFactors. rewrite Hc. reflexivity. }
    destruct (parentUser h) as [[userId userName]|] eqn:Hp.
    2:{ left. unfold listOktaFactors. rewrite Hc, Hp. reflexivity. }
    destruct (userIdQualRejects glv d userId) eqn:Hq.
    { left. unfold listOktaFactors. rewrite Hc, Hp, Hq. reflexivity. }
    destruct (userId =? "") eqn:Hne.
    { left. unfold listOktaFactors. rewrite Hc, Hp, Hq, Hne. reflexivity. }
    apply String.eqb_neq in Hne. right. exists userId, userName.
    destruct (listOktaFactors_fetches glv okta d h b userId userName Hc Hp Hq Hne)
      as (evs & Hev & Hquiet).
    rewrite Hev. unfold requestsOf. cbn [filter isRequest].
    rewrite (quiet_requestsOf _ Hquiet). auto.
  - destruct (appIdOf h =? "") eqn:Hne.
    { left. unfold listApplicationAssignedUsers. rewrite Hne. reflexivity. }
    destruct (Connect okta) as [err|] eqn:Hc.
    { right; left. unfold listApplicationAssignedUsers. rewrite Hne, Hc. reflexivity. }
    apply String.eqb_neq in Hne. right; right. split; [exact Hne|].
    destruct (listApplicationAssignedUsers_fetches okta d h b (conj Hc Hne))
      as (evs & Hev & Hquiet).
    rewrite Hev. unfold requestsOf. cbn [filter isRequest].
    rewrite (quiet_requestsOf _ Hquiet). reflexivity.
  - destruct (Connect okta) as [err|] eqn:Hc.
    { left. unfold listPolicies. rewrite Hc. reflexivity. }
    right. destruct (listPolicies_fetches okta d h b Hc) as (evs & Hev & Hquiet).
    rewrite Hev. unfold requestsOf. cbn [filter isRequest].
    rewrite (quiet_requestsOf _ Hquiet). reflexivity.
  - unfold policyTypeOf.
    destruct (TableName d =? "okta_password_policy"); [left; reflexivity|].
    destruct (TableName d =? "okta_mfa_policy");
      [right; left; reflexivity|right; right; left; reflexivity].
Qed.

(** ** Where the rows come from *)

Lemma streamGuarded_rows row b r :
  In r (rows (events (streamGuarded row b))) -> row = Some r.
Proof.
  destruct row as [r'|]; destruct b as [[|n]|]; cbn; intros H;
    try contradiction; destruct H as [<-|[]]; reflexivity.
Qed.

Lemma rangeStream_rows {A} (rowOf : A -> option Row) xs :
  forall b r,
    In r (rows (events (rangeStream rowOf xs b))) ->
    exists x, In x xs /\ rowOf x = Some r.
Proof.
  induction xs as [|x xs IH]; intros b r H; [contradiction|].
  cbn [rangeStream] in H. rewrite bind_events, rows_app in H.
  apply in_app_or in H as [H|H].
  - apply streamGuarded_rows in H. exists x. split; [left; reflexivity|exact H].
  - destruct (result (streamGuarded (rowOf x) b)); [contradiction|].
    apply IH in H as (y & Hy & Hrow). exists y. split; [right; exact Hy|exact Hrow].
Qed.

Lemma paging_rows {P A} (body : P -> Hyd bool) (from : P -> Row -> Prop) pages :
  (forall p b r, In r (rows (events (body p b))) -> from p r) ->
  forall b r,
    In r (rows (events (paging (A := A) body pages b))) ->
    exists page, In page pages /\ failure page = None /\ from (payload page) r.
Proof.
  intros Hbody. induction pages as [|page pages IH]; intros b r H; [contradiction|].
  cbn [paging] in H. rewrite bind_events in H.
  cbn [tell events result remaining fst snd app rows] in H.
  destruct (failure page) as [err|] eqn:Hfail; [contradiction|].
  rewrite bind_events, rows_app in H. apply in_app_or in H as [H|H].
  - exists page. split; [left; reflexivity|]. split; [exact Hfail|].
    eapply Hbody; exact H.
  - destruct (result (body (payload page) b)); [contradiction|].
    apply IH in H as (page' & Hin & Hok & Hfrom).
    exists page'. split; [right; exact Hin|]. split; assumption.
Qed.

(** X4.  Whatever the row budget and whatever fails, every row a list
    function outputs is built from an item of a page that arrived without
    error: a factor row carries the parent's id and login and the details of
    a non-nil instance of such a page; a user row carries the parent
    application's id and a user of such a page; a policy row is the
    structure that [convertPolicyRespToStruct] gives for such a page. *)
Theorem rows_come_from_pages :
  forall glv okta d h b row,
    (In row (rows (events (listOktaFactors glv okta d h b))) ->
     exists userId userName page instance,
       parentUser h = Some (userId, userName) /\
       In page (first (doListFactors okta userId) :: more (doListFactors okta userId)) /\
       failure page = None /\
       In (Some instance) (payload page) /\
       row = factorInfoRow userId userName instance) /\
    (In row (rows (events (listApplicationAssignedUsers okta d h b))) ->
     exists page user,
       In page (first (appUsersAnswer okta d (appIdOf h))
                :: more (appUsersAnswer okta d (appIdOf h))) /\
       failure page = None /\
       In user (payload page) /\
       row = appUserInfoRow (appIdOf h) user) /\
    (In row (rows (events (listPolicies okta d h b))) ->
     exists policyResp policyStruct,
       (succeeded (first (doListPolicies okta (policyTypeOf d))) /\
        policyResp = payload (first (doListPolicies okta (policyTypeOf d))) \/
        exists page, In page (more (doListPolicies okta (policyTypeOf d))) /\
                     failure page = None /\ policyResp = Some (payload page)) /\
       convertPolicyRespToStruct policyResp = Some policyStruct /\
       row = PolicyRow policyStruct).
Proof.
  intros glv okta d h b row. split; [|split].
  - unfold listOktaFactors. rewrite bind_events.
    cbn [tell events result remaining fst snd app rows].
    destruct (Connect okta); [contradiction|].
    destruct (parentUser h) as [[userId userName]|]; [|contradiction].
    destruct (userIdQualRejects glv d userId); [contradiction|].
    destruct (userId =? ""); [contradiction|].
    rewrite bind_events. cbn [tell events result remaining fst snd app rows].
    destruct (failure (first (doListFactors okta userId))) as [err|] eqn:Hfail.
    { destruct (Strings.Contains err "Not found"); contradiction. }
    rewrite bind_events, rows_app. intros H.
    assert (Hitem : forall xs b' r,
               In r (rows (events (rangeStream (factorRow userId userName) xs b'))) ->
               exists instance, In (Some instance) xs /\
                                r = factorInfoRow userId userName instance).
    { intros xs b' r Hr. apply rangeStream_rows in Hr as (x & Hx & Hrow).
      destruct x as [instance|]; [|discriminate Hrow].
      exists instance. split; [exact Hx|].
      cbn in Hrow. injection Hrow as <-. reflexivity. }
    apply in_app_or in H as [H|H].
    + apply Hitem in H as (instance & Hin & ->).
      exists userId, userName, (first (doListFactors okta userId)), instance.
      repeat split; auto. left; reflexivity.
    + destruct (result _); [contradiction|].
      apply (paging_rows _ (fun xs r => exists instance,
                               In (Some instance) xs /\
                               r = factorInfoRow userId userName instance))
        in H as (page & Hpage & Hok & instance & Hin & ->);
        [|intros p b' r; apply Hitem].
      exists userId, userName, page, instance.
      repeat split; auto. right; exact Hpage.
  - unfold listApplicationAssignedUsers.
    destruct (appIdOf h =? ""); [contradiction|].
    rewrite bind_events. cbn [tell events result remaining fst snd app rows].
    destruct (Connect okta); [contradiction|].
    rewrite bind_events. cbn [tell events result remaining fst snd app rows].
    destruct (failure (first (appUsersAnswer okta d (appIdOf h)))) as [err|] eqn:Hfail;
      [contradiction|].
    rewrite bind_events, rows_app. intros H.
    assert (Hitem : forall xs b' r,
               In r (rows (events (rangeStream (appUserRow (appIdOf h)) xs b'))) ->
               exists user, In user xs /\ r = appUserInfoRow (appIdOf h) user).
    { intros xs b' r Hr. apply rangeStream_rows in Hr as (x & Hx & Hrow).
      exists x. split; [exact Hx|].
      cbn in Hrow. injection Hrow as <-. reflexivity. }
    apply in_app_or in H as [H|H].
    + apply Hitem in H as (user & Hin & ->).
      exists (first (appUsersAnswer okta d (appIdOf h))), user.
      repeat split; auto. left; reflexivity.
    + destruct (result _); [contradiction|].
      apply (paging_rows _ (fun xs r => exists user,
                               In user xs /\ r = appUserInfoRow (appIdOf h) user))
        in H as (page & Hpage & Hok & user & Hin & ->);
        [|intros p b' r; apply Hitem].
      exists page, user. repeat split; auto. right; exact Hpage.
  - unfold listPolicies. rewrite bind_events.
    cbn [tell events result remaining fst snd app rows].
    destruct (Connect okta); [contradiction|].
    rewrite bind_events. cbn [tell events result remaining fst snd app rows].
    destruct (failure (first (doListPolicies okta (policyTypeOf d)))) as [err|] eqn:Hfail;
      [contradiction|].
    rewrite bind_events, rows_app. intros H.
    assert (Hitem : forall resp b' r,
               In r (rows (events (streamGuarded (policyRow resp) b'))) ->
               exists policyStruct,
                 convertPolicyRespToStruct resp = Some policyStruct /\
                 r = PolicyRow policyStruct).
    { intros resp b' r Hr. apply streamGuarded_rows in Hr.
      unfold policyRow in Hr.
      destruct (convertPolicyRespToStruct resp) as [ps|]; [|discriminate Hr].
      exists ps. split; [reflexivity|congruence]. }
    apply in_app_or in H as [H|H].
    + apply Hitem in H as (ps & Hconv & ->).
      exists (payload (first (doListPolicies okta (policyTypeOf d)))), ps.
      split; [left; split; [exact Hfail|reflexivity]|]. split; [exact Hconv|reflexivity].
    + destruct (result _); [contradiction|].
      apply (paging_rows _ (fun nextPolicy r => exists policyStruct,
                               convertPolicyRespToStruct (Some nextPolicy)
                               = Some policyStruct /\ r = PolicyRow policyStruct))
        in H as (page & Hpage & Hok & ps & Hconv & ->);
        [|intros p b' r; apply Hitem].
      exists (Some (payload page)), ps.
      split; [right; exists page; auto|]. split; [exact Hconv|reflexivity].
Qed.

(** ** Parents and keys that lead nowhere *)

(** X5.  [listApplicationAssignedUsers] lists users only for a parent item
    that is one of the nine application types named in its switch and
    carries a non-empty id.  For any other parent -- no item, an item of
    another type, a nil actual instance, an application of another type
    even with an id, a nil or empty id -- it returns [(nil, nil)] without
    connecting, without any request and without touching the budget. *)
Theorem unknown_application_is_skipped :
  forall okta d h b,
    (forall k id,
        h_Item h = Some (ItemListApplications200ResponseInner
                           (Some (KnownApplication k (Some id)))) ->
        id = "") ->
    listApplicationAssignedUsers okta d h b = (Ret None, [], b).
Proof.
  intros okta d h b Hnone.
  assert (Happ : appIdOf h = "").
  { unfold appIdOf.
    destruct (h_Item h) as [[| | | | |[[k [id|]|tag id]|]|]|] eqn:E;
      try reflexivity.
    apply (Hnone k id). reflexivity. }
  unfold listApplicationAssignedUsers. rewrite Happ. reflexivity.
Qed.

Lemma unknown_application_is_skipped_witness :
  listApplicationAssignedUsers threePagesRemote (appUserQuery [] None)
    unknownApplication None
  = (Ret None, [], None).
Proof.
  apply unknown_application_is_skipped.
  intros k id E. discriminate E.
Defined.

(** X6.  A Get needs both of its key qualifiers.  When [user_id] or [id]
    (for [getOktaFactor]), or [app_id] or [id] (for
    [getApplicationAssignedUser]), is absent, is not a string or is the
    empty string, the function returns [(nil, nil)] without connecting and
    without any request. *)
Theorem get_without_keys :
  forall okta d h b,
    (GetStringValue (EqualsQual d "user_id") = "" \/
     GetStringValue (EqualsQual d "id") = "" ->
     getOktaFactor okta d h b = (Ret None, [], b)) /\
    (GetStringValue (EqualsQual d "app_id") = "" \/
     GetStringValue (EqualsQual d "id") = "" ->
     getApplicationAssignedUser okta d h b = (Ret None, [], b)) /\
    (forall key, EqualsQual d key = None -> GetStringValue (EqualsQual d key) = "") /\
    (forall key z, EqualsQual d key = Some (Int64Value z) ->
                   GetStringValue (EqualsQual d key) = "") /\
    (forall key vs, EqualsQual d key = Some (ListValue vs) ->
                    GetStringValue (EqualsQual d key) = "").
Proof.
  intros okta d h b. split; [|split; [|split; [|split]]].
  - intros [H|H]; unfold getOktaFactor; rewrite H; cbn [String.eqb orb];
      [reflexivity|].
    destruct (GetStringValue (EqualsQual d "user_id") =? ""); reflexivity.
  - intros [H|H]; unfold getApplicationAssignedUser; rewrite H; cbn [String.eqb orb];
      [reflexivity|].
    destruct (GetStringValue (EqualsQual d "app_id") =? ""); reflexivity.
  - intros key H. rewrite H. reflexivity.
  - intros key z H. rewrite H. reflexivity.
  - intros key vs H. rewrite H. reflexivity.
Qed.

(** X7.  [getOktaFactor] returns a row only after [GetUser] and then
    [GetFactor] have both succeeded, in that order and for the user and
    factor named by the qualifiers; the row carries the qualifier's user
    id, the login of the user found, and the factor found with its
    profile. *)
Theorem get_factor_row :
  forall okta d h b row,
    result (getOktaFactor okta d h b) = Ret (Some row) ->
    let userId := GetStringValue (EqualsQual d "user_id") in
    let factorId := GetStringValue (EqualsQual d "id") in
    exists user userProfile userName res,
      userId <> "" /\ factorId <> "" /\
      doGetUser okta userId = inr user /\
      User_Profile user = Some userProfile /\
      Login userProfile = Some userName /\
      doGetFactor okta userId factorId = inr (Some res) /\
      row = FactorRow {| UserId := userId; UserName := userName;
                         Factor := {| OF_UserFactor := res;
                                      OF_Profile := Factor_Profile res |} |} /\
      events (getOktaFactor okta d h b)
      = [EvConnect; EvExecute (GetUser userId); EvExecute (GetFactor userId factorId)] /\
      remaining (getOktaFactor okta d h b) = b.
Proof.
  intros okta d h b row. unfold getOktaFactor. cbv zeta.
  set (userId := GetStringValue (EqualsQual d "user_id")).
  set (factorId := GetStringValue (EqualsQual d "id")).
  destruct (userId =? "") eqn:Hu; [discriminate|].
  destruct (factorId =? "") eqn:Hf; [discriminate|].
  cbn [orb]. apply String.eqb_neq in Hu, Hf.
  destruct (Connect okta); [discriminate|].
  destruct (doGetUser okta userId) as [err|user] eqn:Huser.
  { unfold bind, tell. destruct (Strings.Contains err "Not found"); discriminate. }
  destruct (User_Profile user) as [userProfile|] eqn:Hprofile; [|discriminate].
  destruct (doGetFactor okta userId factorId) as [err|[res|]] eqn:Hfactor;
    try discriminate.
  destruct (Login userProfile) as [userName|] eqn:Hlogin; [|discriminate].
  cbn. intros H. injection H as <-.
  exists user, userProfile, userName, res. repeat split; auto.
Qed.

Lemma get_factor_row_witness :
  events (getOktaFactor fullRemote factorGetQuery {| h_Item := None |} (Some 5))
  = [EvConnect; EvExecute (GetUser "u1"); EvExecute (GetFactor "u1" "f9")]
  /\ remaining (getOktaFactor fullRemote factorGetQuery {| h_Item := None |} (Some 5))
     = Some 5.
Proof.
  destruct (get_factor_row fullRemote factorGetQuery {| h_Item := None |} (Some 5)
              _ eq_refl)
    as (user & userProfile & userName & res & _ & _ & _ & _ & _ & _ & _ & Hev & Hb).
  split; [exact Hev|exact Hb].
Defined.

(** ** What the enrichment hydrates return *)

Lemma appendPages_success {A} (pages : list (Answer (list A))) :
  Forall succeeded pages ->
  forall acc b,
    appendPages acc pages b
    = (inr (acc ++ concat (map payload pages)), repeat EvNext (length pages), b).
Proof.
  induction 1 as [|page pages Hpage _ IH]; intros acc b.
  - cbn. rewrite app_nil_r. reflexivity.
  - cbn [appendPages map concat length repeat].
    unfold succeeded in Hpage. rewrite Hpage.
    unfold bind. cbn [tell]. rewrite IH, app_assoc. reflexivity.
Qed.

Lemma mapRules_success structToMap (f : string -> string) rules :
  (forall rule, In rule rules -> structToMap rule = inr (f rule)) ->
  forall acc, mapRules structToMap acc rules = inr (acc ++ map f rules).
Proof.
  induction rules as [|rule rules IH]; intros Hok acc.
  - cbn. rewrite app_nil_r. reflexivity.
  - cbn [mapRules map]. rewrite (Hok rule) by (left; reflexivity).
    rewrite IH by (intros r Hr; apply Hok; right; exact Hr).
    rewrite <- app_assoc. reflexivity.
Qed.

Lemma mapRules_failure structToMap (f : string -> string) good bad rest err :
  (forall rule, In rule good -> structToMap rule = inr (f rule)) ->
  structToMap bad = inl err ->
  forall acc, mapRules structToMap acc (good ++ bad :: rest) = inl err.
Proof.
  induction good as [|rule good IH]; intros Hok Hbad acc.
  - cbn. rewrite Hbad. reflexivity.
  - cbn [app mapRules]. rewrite (Hok rule) by (left; reflexivity).
    apply IH; [intros r Hr; apply Hok; right; exact Hr|exact Hbad].
Qed.

Lemma getOktaPolicyRules_paged structToMap okta d h b policyId :
  reachesPolicyFetch okta h policyIdForRules policyId ->
  succeeded (first (doListPolicyRules okta policyId)) ->
  Forall succeeded (more (doListPolicyRules okta policyId)) ->
  getOktaPolicyRules structToMap okta d h b
  = (match mapRules structToMap []
             (payload (first (doListPolicyRules okta policyId))
              ++ concat (map payload (more (doListPolicyRules okta policyId)))) with
     | inl err => Fail err
     | inr allRules => Ret (Some allRules)
     end,
     EvConnect :: EvExecute (ListPolicyRules policyId)
       :: repeat EvNext (length (more (doListPolicyRules okta policyId))),
     b).
Proof.
  intros (Hc & (item & Hi & Hid) & Hne) Hfirst Hmore.
  apply String.eqb_neq in Hne. unfold getOktaPolicyRules.
  unfold succeeded in Hfirst. rewrite Hi, Hid, Hne, Hc, Hfirst.
  unfold bind at 1. cbn [tell]. unfold bind at 1. cbn [tell].
  unfold bind. rewrite (appendPages_success _ Hmore). cbn [app].
  destruct (mapRules structToMap [] _); cbn [ret app]; rewrite ?app_nil_r;
    reflexivity.
Qed.

(** X8.  When every page of rules arrives and [structToMap] converts every
    rule, [getOktaPolicyRules] returns the converted rules of all pages, in
    page order and in the order of each page; it connects, executes one
    request and follows the cursor once per continuation page; the row
    budget is left as it was. *)
Theorem policy_rules_of_all_pages :
  forall structToMap (f : string -> string) okta d h b policyId,
    reachesPolicyFetch okta h policyIdForRules policyId ->
    succeeded (first (doListPolicyRules okta policyId)) ->
    Forall succeeded (more (doListPolicyRules okta policyId)) ->
    (forall rule,
        In rule (payload (first (doListPolicyRules okta policyId))
                 ++ concat (map payload (more (doListPolicyRules okta policyId)))) ->
        structToMap rule = inr (f rule)) ->
    getOktaPolicyRules structToMap okta d h b
    = (Ret (Some (map f (payload (first (doListPolicyRules okta policyId))
                         ++ concat (map payload (more (doListPolicyRules okta policyId)))))),
       EvConnect :: EvExecute (ListPolicyRules policyId)
         :: repeat EvNext (length (more (doListPolicyRules okta policyId))),
       b).
Proof.
  intros structToMap f okta d h b policyId Hreach Hfirst Hmore Hconv.
  rewrite (getOktaPolicyRules_paged _ _ _ _ _ _ Hreach Hfirst Hmore).
  rewrite (mapRules_success _ f _ Hconv). reflexivity.
Qed.

Lemma policy_rules_of_all_pages_witness :
  getOktaPolicyRules (fun rule => inr ("map:" ++ rule)%string) fullRemote policyQuery
    (policyItem "p1") (Some 3)
  = (Ret (Some ["map:r1"; "map:r2"; "map:r3"]),
     [EvConnect; EvExecute (ListPolicyRules "p1"); EvNext], Some 3).
Proof.
  refine (policy_rules_of_all_pages
            (fun rule => inr ("map:" ++ rule)%string)
            (fun rule => ("map:" ++ rule)%string)
            fullRemote policyQuery (policyItem "p1") (Some 3) "p1" _ eq_refl _ _).
  - split; [reflexivity|]. split; [eexists; split; reflexivity|].
    intros E; discriminate E.
  - repeat constructor.
  - intros rule _. reflexivity.
Defined.

(** X9.  [getOktaPolicyRules] converts the rules only after it has fetched
    all pages: when [structToMap] fails on a rule, the error of the first
    such rule in page order is returned, no rule is returned, and the run
    has requested every page all the same. *)
Theorem policy_rules_conversion_error :
  forall structToMap (f : string -> string) okta d h b policyId good bad rest err,
    reachesPolicyFetch okta h policyIdForRules policyId ->
    succeeded (first (doListPolicyRules okta policyId)) ->
    Forall succeeded (more (doListPolicyRules okta policyId)) ->
    payload (first (doListPolicyRules okta policyId))
      ++ concat (map payload (more (doListPolicyRules okta policyId)))
    = good ++ bad :: rest ->
    (forall rule, In rule good -> structToMap rule = inr (f rule)) ->
    structToMap bad = inl err ->
    getOktaPolicyRules structToMap okta d h b
    = (Fail err,
       EvConnect :: EvExecute (ListPolicyRules policyId)
         :: repeat EvNext (length (more (doListPolicyRules okta policyId))),
       b).
Proof.
  intros structToMap f okta d h b policyId good bad rest err
         Hreach Hfirst Hmore Hall Hgood Hbad.
  rewrite (getOktaPolicyRules_paged _ _ _ _ _ _ Hreach Hfirst Hmore).
  rewrite Hall, (mapRules_failure _ f _ _ _ _ Hgood Hbad). reflexivity.
Qed.

Lemma policy_rules_conversion_error_witness :
  getOktaPolicyRules structToMap_but_r2 fullRemote policyQuery (policyItem "p1") None
  = (Fail "json: unsupported value",
     [EvConnect; EvExecute (ListPolicyRules "p1"); EvNext], None).
Proof.
  refine (policy_rules_conversion_error structToMap_but_r2 (fun rule => rule)
            fullRemote policyQuery (policyItem "p1") None "p1"
            ["r1"] "r2" ["r3"] "json: unsupported value"
            _ eq_refl _ eq_refl _ eq_refl).
  - split; [reflexivity|]. split; [eexists; split; reflexivity|].
    intros E; discriminate E.
  - repeat constructor.
  - intros rule [<-|[]]. reflexivity.
Defined.

(** X10.  When every page of mappings arrives,
    [getOktaPolicyAssociatedResources] returns the mappings of all pages, in
    page order and in the order of each page, after one request and one
    cursor step per continuation page; the row budget is left as it was. *)
Theorem policy_mappings_of_all_pages :
  forall okta d h b policyId,
    reachesPolicyFetch okta h policyIdForResources policyId ->
    succeeded (first (doListPolicyMappings okta policyId)) ->
    Forall succeeded (more (doListPolicyMappings okta policyId)) ->
    getOktaPolicyAssociatedResources okta d h b
    = (Ret (Some (payload (first (doListPolicyMappings okta policyId))
                  ++ concat (map payload (more (doListPolicyMappings okta policyId))))),
       EvConnect :: EvExecute (ListPolicyMappings policyId)
         :: repeat EvNext (length (more (doListPolicyMappings okta policyId))),
       b).
Proof.
  intros okta d h b policyId (Hc & (item & Hi & Hid) & Hne) Hfirst Hmore.
  apply String.eqb_neq in Hne. unfold getOktaPolicyAssociatedResources.
  unfold succeeded in Hfirst. rewrite Hi, Hid, Hne, Hc, Hfirst.
  unfold bind at 1. cbn [tell]. unfold bind at 1. cbn [tell].
  unfold bind. rewrite (appendPages_success _ Hmore). cbn [ret app].
  rewrite ?app_nil_r. reflexivity.
Qed.

Lemma policy_mappings_of_all_pages_witness :
  getOktaPolicyAssociatedResources fullRemote policyQuery (policyItem "p1") (Some 1)
  = (Ret (Some ["m1"; "m2"; "m3"]),
     [EvConnect; EvExecute (ListPolicyMappings "p1"); EvNext], Some 1).
Proof.
  refine (policy_mappings_of_all_pages fullRemote policyQuery (policyItem "p1")
            (Some 1) "p1" _ eq_refl _).
  - split; [reflexivity|]. split; [eexists; split; reflexivity|].
    intros E; discriminate E.
  - repeat constructor.
Defined.

(** ** Which policy the enrichment hydrates look up *)

(** X11.  The two enrichment hydrates read the policy id off the row's item
    and make no connection and no request when there is no item or the id
    comes out empty.  [getOktaPolicyAssociatedResources] knows the id of a
    [PolicyStructure], a [Policy] and an [AuthorizationServerPolicy] only:
    for an item of the union type [ListPolicies200Response] -- what
    [listOktaSignonPolicies] streams -- it never requests the mappings.
    [getOktaPolicyRules] also resolves the union type, for its five named
    variants: it requests the rules of that policy's id, panics when the id
    is nil, and makes no request for any other variant or a nil instance. *)
Theorem policy_item_resolution :
  forall structToMap okta d b,
    getOktaPolicyRules structToMap okta d {| h_Item := None |} b = (Ret None, [], b) /\
    getOktaPolicyAssociatedResources okta d {| h_Item := None |} b = (Ret None, [], b) /\
    (forall item,
        policyIdForRules item = Some "" ->
        getOktaPolicyRules structToMap okta d {| h_Item := Some item |} b
        = (Ret None, [], b)) /\
    (forall item,
        policyIdForResources item = Some "" ->
        getOktaPolicyAssociatedResources okta d {| h_Item := Some item |} b
        = (Ret None, [], b)) /\
    (forall r, policyIdForResources (ItemListPolicies200Response r) = Some "") /\
    (forall tag p,
        policyIdForRules (ItemListPolicies200Response (Some (OtherPolicy tag p)))
        = Some "") /\
    policyIdForRules (ItemListPolicies200Response None) = Some "" /\
    (forall instance p,
        In instance [AccessPolicy p; IdpDiscoveryPolicy p;
                     AuthenticatorEnrollmentPolicy p; OktaSignOnPolicy p;
                     PasswordPolicy p] ->
        let h := {| h_Item := Some (ItemListPolicies200Response (Some instance)) |} in
        (Policy_Id p = None ->
         getOktaPolicyRules structToMap okta d h b = (Panic, [], b)) /\
        (forall id, Policy_Id p = Some id -> id <> "" -> Connect okta = None ->
                    exists evs,
                      events (getOktaPolicyRules structToMap okta d h b)
                      = EvConnect :: EvExecute (ListPolicyRules id) :: evs)).
Proof.
  intros structToMap okta d b.
  split; [reflexivity|]. split; [reflexivity|].
  split; [|split; [|split; [|split; [|split]]]].
  - intros item H. unfold getOktaPolicyRules. cbn [h_Item]. rewrite H. reflexivity.
  - intros item H. unfold getOktaPolicyAssociatedResources. cbn [h_Item].
    rewrite H. reflexivity.
  - reflexivity.
  - reflexivity.
  - reflexivity.
  - intros instance p Hin h.
    assert (Hid : policyIdForRules (ItemListPolicies200Response (Some instance))
                  = Policy_Id p).
    { cbn in Hin. destruct Hin as [<-|[<-|[<-|[<-|[<-|[]]]]]]; reflexivity. }
    split.
    + intros Hnil. unfold getOktaPolicyRules. subst h. cbn [h_Item].
      rewrite Hid, Hnil. reflexivity.
    + intros id Hsome Hne Hc. unfold getOktaPolicyRules. subst h. cbn [h_Item].
      apply String.eqb_neq in Hne. rewrite Hid, Hsome, Hne, Hc.
      rewrite !bind_events. cbn [tell events result remaining fst snd app].
      eexists. reflexivity.
Qed.

(** ** Not found, in any letter case *)

Lemma lowerAscii_eq a b : a = b -> Strings.lowerAscii a = Strings.lowerAscii b.
Proof. intros ->. reflexivity. Qed.

Lemma prefix_ToLower t : forall s,
  String.prefix t s = true ->
  String.prefix (Strings.ToLower t) (Strings.ToLower s) = true.
Proof.
  induction t as [|a t IH]; intros s H; [destruct s; reflexivity|].
  destruct s as [|c s]; [discriminate H|].
  cbn [String.prefix Strings.ToLower] in *.
  destruct (ascii_dec a c) as [->|Hne]; [|discriminate H].
  destruct (ascii_dec (Strings.lowerAscii c) (Strings.lowerAscii c)) as [_|Hn];
    [apply IH; exact H|contradiction Hn; reflexivity].
Qed.

Lemma Contains_ToLower s : forall t,
  Strings.Contains s t = true ->
  Strings.Contains (Strings.ToLower s) (Strings.ToLower t) = true.
Proof.
  induction s as [|c s IH]; intros t H.
  - cbn [Strings.Contains Strings.ToLower] in *.
    destruct (String.prefix t "") eqn:Hp; [|discriminate H].
    apply prefix_ToLower in Hp. cbn [Strings.ToLower] in Hp. rewrite Hp. reflexivity.
  - cbn [Strings.Contains] in H.
    destruct (String.prefix t (String c s)) eqn:Hp.
    + apply prefix_ToLower in Hp. cbn [Strings.Contains Strings.ToLower] in *.
      rewrite Hp. reflexivity.
    + apply IH in H. clear Hp. cbn [Strings.Contains Strings.ToLower].
      destruct (String.prefix (Strings.ToLower t)
                  (String (Strings.lowerAscii c) (Strings.ToLower s)));
        [reflexivity|exact H].
Qed.

(** X12.  [getOktaPolicyAssociatedResources] ignores a first-page error
    whose message contains "not found" in any letter case: if the message
    contains a text that lower-cases to "not found" -- "Not found", as the
    other functions test it, "NOT FOUND", and so on -- the function returns
    [(nil, nil)] after its one request. *)
Theorem mappings_not_found_any_case :
  forall okta d h b policyId err needle,
    reachesPolicyFetch okta h policyIdForResources policyId ->
    failure (first (doListPolicyMappings okta policyId)) = Some err ->
    Strings.ToLower needle = "not found" ->
    Strings.Contains err needle = true ->
    getOktaPolicyAssociatedResources okta d h b
    = (Ret None, [EvConnect; EvExecute (ListPolicyMappings policyId)], b).
Proof.
  intros okta d h b policyId err needle
         (Hc & (item & Hi & Hid) & Hne) Herr Hlow Hcontains.
  apply String.eqb_neq in Hne. unfold getOktaPolicyAssociatedResources.
  rewrite Hi, Hid, Hne, Hc, Herr.
  apply Contains_ToLower in Hcontains. rewrite Hlow in Hcontains.
  rewrite Hcontains. reflexivity.
Qed.

Lemma mappings_not_found_any_case_witness :
  getOktaPolicyAssociatedResources upperNotFoundRemote policyQuery
    (policyItem "p1") None
  = (Ret None, [EvConnect; EvExecute (ListPolicyMappings "p1")], None).
Proof.
  refine (mappings_not_found_any_case upperNotFoundRemote policyQuery
            (policyItem "p1") None "p1" "Resource NOT FOUND" "NOT FOUND"
            _ eq_refl eq_refl eq_refl).
  split; [reflexivity|]. split; [eexists; split; reflexivity|].
  intros E; discriminate E.
Defined.

(** ** Hydrates that are not lists output no row *)

Lemma appendPages_silent {A} (pages : list (Answer (list A))) :
  forall acc b,
    rows (events (appendPages acc pages b)) = [] /\
    remaining (appendPages acc pages b) = b.
Proof.
  induction pages as [|page pages IH]; intros acc b; [split; reflexivity|].
  cbn [appendPages]. rewrite bind_events, bind_remaining.
  cbn [tell events result remaining fst snd app rows].
  destruct (failure page); [split; reflexivity|apply IH].
Qed.

Ltac silent_step :=
  repeat first
    [ split; reflexivity
    | rewrite bind_events, bind_remaining;
      cbn [tell events result remaining fst snd app rows]
    | match goal with
      | |- context [match ?x with _ => _ end] => destruct x
      | |- context [if ?x then _ else _] => destruct x
      end ].

(** X13.  The Get hydrates [getOktaFactor] and [getApplicationAssignedUser]
    and the enrichment hydrates [getOktaPolicyRules] and
    [getOktaPolicyAssociatedResources] hand their result back as a return
    value: whatever the remote answers, they output no row and leave the row
    budget as they found it. *)
Theorem hydrates_output_no_row :
  forall structToMap okta d h b,
    (rows (events (getOktaFactor okta d h b)) = [] /\
     remaining (getOktaFactor okta d h b) = b) /\
    (rows (events (getApplicationAssignedUser okta d h b)) = [] /\
     remaining (getApplicationAssignedUser okta d h b) = b) /\
    (rows (events (getOktaPolicyRules structToMap okta d h b)) = [] /\
     remaining (getOktaPolicyRules structToMap okta d h b) = b) /\
    (rows (events (getOktaPolicyAssociatedResources okta d h b)) = [] /\
     remaining (getOktaPolicyAssociatedResources okta d h b) = b).
Proof.
  intros structToMap okta d h b. split; [|split; [|split]].
  - unfold getOktaFactor. cbv zeta. silent_step.
  - unfold getApplicationAssignedUser. cbv zeta. silent_step.
  - unfold getOktaPolicyRules.
    destruct (h_Item h) as [item|]; [|split; reflexivity].
    destruct (policyIdForRules item) as [policyId|]; [|split; reflexivity].
    destruct (policyId =? ""); [split; reflexivity|].
    rewrite bind_events, bind_remaining.
    cbn [tell events result remaining fst snd app rows].
    destruct (Connect okta); [split; reflexivity|].
    rewrite bind_events, bind_remaining.
    cbn [tell events result remaining fst snd app rows].
    destruct (failure (first (doListPolicyRules okta policyId)));
      [split; reflexivity|].
    rewrite bind_events, bind_remaining, rows_app.
    destruct (appendPages_silent (more (doListPolicyRules okta policyId))
                (payload (first (doListPolicyRules okta policyId))) b)
      as (Hrows & Hb).
    rewrite Hrows, Hb.
    destruct (result (appendPages _ _ b)) as [err|rules]; [split; reflexivity|].
    destruct (mapRules structToMap [] rules); split; reflexivity.
  - unfold getOktaPolicyAssociatedResources.
    destruct (h_Item h) as [item|]; [|split; reflexivity].
    destruct (policyIdForResources item) as [policyId|]; [|split; reflexivity].
    destruct (policyId =? ""); [split; reflexivity|].
    rewrite bind_events, bind_remaining.
    cbn [tell events result remaining fst snd app rows].
    destruct (Connect okta); [split; reflexivity|].
    rewrite bind_events, bind_remaining.
    cbn [tell events result remaining fst snd app rows].
    destruct (failure (first (doListPolicyMappings okta policyId))) as [err|].
    { destruct (Strings.Contains (Strings.ToLower err) "not found"
                || Strings.Contains err "404"); split; reflexivity. }
    rewrite bind_events, bind_remaining, rows_app.
    destruct (appendPages_silent (more (doListPolicyMappings okta policyId))
                (payload (first (doListPolicyMappings okta policyId))) b)
      as (Hrows & Hb).
    rewrite Hrows, Hb.
    destruct (result (appendPages _ _ b)) as [err|mappings]; split; reflexivity.
Qed.

(** ** A factor list without a parent *)

(** X14.  [listOktaFactors] reads the user off the parent item.  Called
    without one it has no user id: whatever the qualifiers, it connects,
    makes no request and returns [(nil, nil)], or the connection error.  A
    parent that is not a user, or a user whose id is nil, makes it panic
    once the connection is made. *)
Theorem factors_without_parent :
  forall glv okta d b,
    (Connect okta = None ->
     listOktaFactors glv okta d {| h_Item := None |} b = (Ret None, [EvConnect], b)) /\
    (forall err, Connect okta = Some err ->
                 listOktaFactors glv okta d {| h_Item := None |} b
                 = (Fail err, [EvConnect], b)) /\
    (forall item,
        Connect okta = None ->
        (forall u userId, item = ItemUser u -> User_Id u <> Some userId) ->
        listOktaFactors glv okta d {| h_Item := Some item |} b
        = (Panic, [EvConnect], b)).
Proof.
  intros glv okta d b. split; [|split].
  - intros Hc. unfold listOktaFactors. rewrite Hc. cbn [parentUser h_Item].
    destruct (userIdQualRejects glv d ""); reflexivity.
  - intros err Hc. unfold listOktaFactors. rewrite Hc. reflexivity.
  - intros item Hc Hnot. unfold listOktaFactors. rewrite Hc.
    assert (Hp : parentUser {| h_Item := Some item |} = None).
    { unfold parentUser. cbn [h_Item].
      destruct item as [u| | | | | |]; try reflexivity.
      destruct (User_Id u) as [userId|] eqn:E; [|reflexivity].
      exfalso. exact (Hnot u userId eq_refl E). }
    rewrite Hp. reflexivity.
Qed.

(** ** The logging transport hands through what it wraps *)

Lemma append_empty (s : string) : (s ++ "")%string = s.
Proof. induction s as [|c s IH]; cbn; [|rewrite IH]; reflexivity. Qed.

(** X15.  [RoundTrip] of the transport made by [NewLoggingRoundTripper]
    returns exactly the response and the error of the wrapped transport --
    the default transport when none is given -- and writes two lines: the
    call, with the endpoint (method, path, and the query after a question
    mark when there is one), then the error if the transport returned one
    and the response status otherwise. *)
Theorem logging_transport_is_transparent :
  forall defaultTransport w req,
    let transport := match w with Some t => t | None => defaultTransport end in
    fst (transport req) <> None \/ snd (transport req) <> None ->
    let out := RoundTrip (NewLoggingRoundTripper defaultTransport w) req in
    let endpoint :=
      ((Method req ++ " " ++ URL_Path req)
       ++ (if URL_RawQuery req =? "" then "" else "?" ++ URL_RawQuery req))%string in
    fst out = Returned (transport req) /\
    exists outcome,
      snd out = [ LogInfo "okta_api_call"
                    [("endpoint", LogString endpoint);
                     ("method", LogString (Method req));
                     ("url", LogString (URL_String req))];
                  outcome ] /\
      match snd (transport req) with
      | Some e =>
          outcome = LogError "okta_api_call_error"
                      [("endpoint", LogString endpoint); ("error", LogErr e)]
      | None =>
          exists r, fst (transport req) = Some r /\
                    outcome = LogInfo "okta_api_response"
                                [("endpoint", LogString endpoint);
                                 ("status", LogInt (StatusCode r))]
      end.
Proof.
  intros defaultTransport w req transport Hsome out endpoint.
  assert (Hend : endpointOf req = endpoint).
  { unfold endpointOf, endpoint. destruct (URL_RawQuery req =? ""); cbn [negb].
    - symmetry. apply append_empty.
    - reflexivity. }
  assert (Hw : wrapped (NewLoggingRoundTripper defaultTransport w) = transport).
  { subst transport. destruct w; reflexivity. }
  subst out. unfold RoundTrip. rewrite Hw, Hend.
  destruct (transport req) as [resp err]. cbn [fst snd] in *.
  destruct err as [e|].
  - split; [reflexivity|]. eexists. split; reflexivity.
  - destruct resp as [r|].
    + split; [reflexivity|]. eexists. split; [reflexivity|].
      exists r. split; reflexivity.
    + destruct Hsome as [H|H]; contradiction H; reflexivity.
Qed.

Lemma logging_transport_is_transparent_witness :
  fst (RoundTrip (NewLoggingRoundTripper okTransport (Some failingTransport))
         sampleRequest)
  = Returned (None, Some "dial tcp: connection refused")
  /\ fst (RoundTrip (NewLoggingRoundTripper okTransport None) sampleRequest)
     = Returned (Some {| StatusCode := 200%Z |}, None).
Proof.
  split.
  - refine (proj1 (logging_transport_is_transparent okTransport
                     (Some failingTransport) sampleRequest _)).
    right. intros E; discriminate E.
  - refine (proj1 (logging_transport_is_transparent okTransport None
                     sampleRequest _)).
    left. intros E; discriminate E.
Defined.

Example logging_transport_lines :
  snd (RoundTrip (NewLoggingRoundTripper okTransport None) sampleRequest)
  = [ LogInfo "okta_api_call"
        [("endpoint", LogString "GET /api/v1/users?limit=200");
         ("method", LogString "GET");
         ("url", LogString "https://example.okta.com/api/v1/users?limit=200")];
      LogInfo "okta_api_response"
        [("endpoint", LogString "GET /api/v1/users?limit=200");
         ("status", LogInt 200)] ].
Proof. reflexivity. Qed.
